(** * FuelWalletConnector: a model of the page-side wallet connector

    The development follows
    [packages/fuel-wallet/src/FuelWalletConnector.ts].  The connector is
    an object that talks to a wallet agent through [window.postMessage];
    its methods are asynchronous.  An asynchronous method is embedded as
    a program [Prog] whose nodes are the effects the method performs
    (a JSON-RPC request, a window event, an emitter notification) and
    the connector itself as a state machine that runs such programs up
    to their next suspension point. *)

From Stdlib Require Import List String Ascii ZArith Bool Arith Lia.
From Stdlib Require Import DecimalString.
Import ListNotations.
Local Open Scope string_scope.
Local Open Scope list_scope.
Set Warnings "-register-all".

(** ** JavaScript values *)

Inductive Value : Type :=
| VUndefined
| VNull
| VBool (b : bool)
| VNumber (n : Z)
| VString (s : string)
| VBytes (bytes : list Z)                       (* Uint8Array *)
| VArray (items : list Value)
| VObject (fields : list (string * Value)).

(** ToBoolean *)
Definition truthy (v : Value) : bool :=
  match v with
  | VUndefined | VNull => false
  | VBool b => b
  | VNumber n => negb (n =? 0)%Z
  | VString s => negb (s =? "")
  | VBytes _ | VArray _ | VObject _ => true
  end.

(** [typeof v === 'object'] ([typeof null] is ['object'] too) *)
Definition typeof_object (v : Value) : bool :=
  match v with
  | VNull | VBytes _ | VArray _ | VObject _ => true
  | _ => false
  end.

Definition typeof_string (v : Value) : bool :=
  match v with VString _ => true | _ => false end.

Fixpoint lookup_field (k : string) (fields : list (string * Value)) : option Value :=
  match fields with
  | [] => None
  | (k', v) :: rest => if k' =? k then Some v else lookup_field k rest
  end.

Definition index_name (i : nat) : string :=
  NilEmpty.string_of_uint (Nat.to_uint i).

Definition indexed_name (k : string) (len : nat) : bool :=
  existsb (fun i => index_name i =? k) (seq 0 len).

(** The errors a call can end with. *)
Inductive Error : Type :=
| JsError (message : string)                    (* new Error(message) *)
| TypeError (message : string)
| ReferenceError (message : string)
| RequestTimeout                                (* the client's timer expired *)
| AgentError (code : Z) (message : string)      (* error member of a response *)
| ForeignError (message : string).              (* raised by a collaborator *)

(** [k in v]: own properties of the value; a primitive on the right-hand
    side is a TypeError. *)
Definition in_operator (k : string) (v : Value) : Error + bool :=
  match v with
  | VObject fields =>
      inr (match lookup_field k fields with Some _ => true | None => false end)
  | VArray items => inr ((k =? "length") || indexed_name k (List.length items))
  | VBytes bytes => inr ((k =? "length") || indexed_name k (List.length bytes))
  | _ => inl (TypeError "Cannot use 'in' operator")
  end.

(** [v?.k] for a property name [k] that is neither an index nor
    ["length"]: [undefined] on everything but an object that has it. *)
Definition optional_member (v : Value) (k : string) : Value :=
  match v with
  | VObject fields =>
      match lookup_field k fields with Some x => x | None => VUndefined end
  | _ => VUndefined
  end.

(** ** String.prototype.trim

    Strings are sequences of 8-bit code units; the white space and line
    terminator code units of ECMAScript in that range are TAB, LF, VT,
    FF, CR, SP and NBSP. *)
Definition is_white_space (a : ascii) : bool :=
  let n := nat_of_ascii a in
  ((n =? 9) || (n =? 10) || (n =? 11) || (n =? 12) || (n =? 13)
   || (n =? 32) || (n =? 160))%nat.

Fixpoint drop_white_space (l : list ascii) : list ascii :=
  match l with
  | [] => []
  | a :: rest => if is_white_space a then drop_white_space rest else l
  end.

Definition trim (s : string) : string :=
  string_of_list_ascii
    (rev (drop_white_space (rev (drop_white_space (list_ascii_of_string s))))).

(** ** Messages on the channel *)

Record JSONRPCRequest : Type := mkRequest {
  request_id : nat;
  request_method : string;
  request_params : Value }.

(** A response is [{id, result}] or [{id, error}]. *)
Record JSONRPCResponse : Type := mkResponse {
  response_id : nat;
  response_body : Error + Value }.

Record EventData : Type := mkEventData {
  event : string;
  params : list Value }.

(** Modelled from the spec: [./types] is not among the sources; the
    spec's data model gives the channel message as a tagged union with
    the kinds [request], [response] and [event] and a payload that
    depends on the kind.  The dispatcher has a default branch: a message
    of any other kind is kept as [OtherPayload]. *)
Inductive MessageTypes : Type :=
| request | response | event_ | other_ (kind : string).

Inductive Payload : Type :=
| RequestPayload (r : JSONRPCRequest)
| ResponsePayload (r : JSONRPCResponse)
| EventPayload (events : list EventData)
| OtherPayload (kind : string).

Record CommunicationMessage : Type := mkMessage {
  target : string;
  connectorName : option string;
  payload : Payload }.

Definition type (m : CommunicationMessage) : MessageTypes :=
  match payload m with
  | RequestPayload _ => request
  | ResponsePayload _ => response
  | EventPayload _ => event_
  | OtherPayload kind => other_ kind
  end.

Inductive Primitive : Type :=
| PBoolean (b : bool)
| PNumber (n : Z)
| PString (s : string).

(** What the listener finds in [message.data].  The window hands over
    whatever a script posted, as the three reads of [acceptMessage]
    see it: [null] and [undefined], of which no property can be read; a
    boolean, a number or a string, of which every property reads
    [undefined]; an object whose [target] is missing or is no string,
    with the [type] and the [connectorName] it reads; an object whose
    [target] is a string, which is a channel message.  The payload of a
    channel message is read by the dispatcher and the layers above it,
    once the message is accepted, and is typed as [./types] has it. *)
Inductive MessageData : Type :=
| Nullish
| NotAnObject (p : Primitive)
| Untargeted (type_ : MessageTypes) (connectorName_ : option string)
| Channel (m : CommunicationMessage).

Record MessageEvent : Type := mkMessageEvent {
  origin : string;
  data : MessageData }.

(** [event.type]: reading a property of [null] or [undefined] throws. *)
Definition read_type (event : MessageData) : Error + MessageTypes :=
  match event with
  | Nullish => inl (TypeError "Cannot read properties of null or undefined")
  | NotAnObject _ => inr (other_ "undefined")
  | Untargeted type_ _ => inr type_
  | Channel m => inr (type m)
  end.

(** [event.connectorName] and [event.target], when they are strings. *)
Definition read_connectorName (event : MessageData) : option string :=
  match event with
  | Nullish | NotAnObject _ => None
  | Untargeted _ connectorName_ => connectorName_
  | Channel m => connectorName m
  end.

Definition read_target (event : MessageData) : option string :=
  match event with
  | Channel m => Some (target m)
  | _ => None
  end.

(** Constants of [./constants] and of the SDK the connector names; they
    are not among the sources and stay abstract. *)
Class Constants : Type := {
  CONNECTOR_SCRIPT : string;
  CONTENT_SCRIPT_NAME : string;
  FuelConnectorEventType : string }.

(** ** Asynchronous programs *)

Inductive Settlement : Type :=
| Fulfilled (v : Value)
| RejectedWith (e : Error).

(** What a promise of a collaborator does when awaited. *)
Inductive Awaited (A : Type) : Type :=
| Settles (r : Error + A)
| Hangs.
Arguments Settles {A} r.
Arguments Hangs {A}.

Inductive Prog : Type :=
| Ret (v : Value)
| Throw (e : Error)
| Never                                          (* awaits a promise that never settles *)
| Request (timeout : option nat) (method : string) (args : Value)
          (k : Settlement -> Prog)               (* await client.request(...) *)
| WindowDispatch (type_ : string) (next : Prog)  (* window.dispatchEvent(new CustomEvent(type, {detail: this})) *)
| Emit (name_ : string) (args : list Value) (next : Prog)  (* this.emit(name, ...args) *)
| Spawn (p : Prog) (next : Prog)                 (* a call whose promise is not awaited *)
| HasWindow (k : bool -> Prog).                  (* typeof window !== 'undefined' *)

Fixpoint bind (p : Prog) (f : Value -> Prog) : Prog :=
  match p with
  | Ret v => f v
  | Throw e => Throw e
  | Never => Never
  | Request t m a k => Request t m a (fun s => bind (k s) f)
  | WindowDispatch ty next => WindowDispatch ty (bind next f)
  | Emit n a next => Emit n a (bind next f)
  | Spawn q next => Spawn q (bind next f)
  | HasWindow k => HasWindow (fun b => bind (k b) f)
  end.

Fixpoint try_catch (p : Prog) (h : Error -> Prog) : Prog :=
  match p with
  | Ret v => Ret v
  | Throw e => h e
  | Never => Never
  | Request t m a k => Request t m a (fun s => try_catch (k s) h)
  | WindowDispatch ty next => WindowDispatch ty (try_catch next h)
  | Emit n a next => Emit n a (try_catch next h)
  | Spawn q next => Spawn q (try_catch next h)
  | HasWindow k => HasWindow (fun b => try_catch (k b) h)
  end.

Notation "x <- p ;; q" := (bind p (fun x => q))
  (at level 61, p at next level, right associativity).

Definition of_result {A : Type} (r : Error + A) (k : A -> Prog) : Prog :=
  match r with inl e => Throw e | inr a => k a end.

Definition await {A : Type} (w : Awaited A) (k : A -> Prog) : Prog :=
  match w with Settles r => of_result r k | Hangs => Never end.

Definition settle (s : Settlement) : Prog :=
  match s with Fulfilled v => Ret v | RejectedWith e => Throw e end.

(** ** The connector object *)

(** An entry of the client's table of requests in flight: the request
    id, the time at which its timer fires (if one is armed), the call
    waiting for it and what that call does once the request settles. *)
Record Pending : Type := mkPending {
  pending_id : nat;
  pending_deadline : option nat;
  pending_caller : option nat;
  pending_k : Settlement -> Prog }.

Record Connector : Type := mkConnector {
  name : string;
  window : option string;           (* window.origin, when there is a window *)
  clock : nat;                      (* milliseconds *)
  nextId : nat;                     (* createRequestId: crypto.randomUUID, a fresh id per call *)
  pendingRequests : list Pending;   (* newest first *)
  listeners : list (string * nat)   (* event name, handler; in registration order *) }.

Definition with_clock (t : nat) (c : Connector) : Connector :=
  mkConnector (name c) (window c) t (nextId c) (pendingRequests c) (listeners c).

Definition with_nextId (n : nat) (c : Connector) : Connector :=
  mkConnector (name c) (window c) (clock c) n (pendingRequests c) (listeners c).

Definition with_pendingRequests (l : list Pending) (c : Connector) : Connector :=
  mkConnector (name c) (window c) (clock c) (nextId c) l (listeners c).

Definition with_listeners (l : list (string * nat)) (c : Connector) : Connector :=
  mkConnector (name c) (window c) (clock c) (nextId c) (pendingRequests c) l.

(** What the page can observe. *)
Inductive Effect : Type :=
| PostMessage (message : CommunicationMessage) (targetOrigin : string)
| DispatchEvent (type_ : string)                (* a CustomEvent whose detail is the connector *)
| Invoke (handler : nat) (args : list Value)    (* a subscriber is called *)
| Settled (call : nat) (s : Settlement)         (* the promise of a call settles *)
| UnhandledRejection (e : Error)
| Uncaught (e : Error).                         (* an exception leaves the listener *)

Section Connector.
Context {constants : Constants}.

Definition createRequestId (c : Connector) : nat * Connector :=
  (nextId c, with_nextId (S (nextId c)) c).

(** [window.postMessage(message, origin || window.origin)] *)
Definition postMessage (c : Connector) (message : CommunicationMessage)
  (origin_ : option string) : Error + list Effect :=
  match window c with
  | None => inl (ReferenceError "window is not defined")
  | Some window_origin =>
      inr [PostMessage message
             match origin_ with
             | Some o => if truthy (VString o) then o else window_origin
             | None => window_origin
             end]
  end.

Definition sendRequest (c : Connector) (r : option JSONRPCRequest)
  : Error + list Effect :=
  match r with
  | None => inr []
  | Some r =>
      postMessage c
        {| target := CONTENT_SCRIPT_NAME;
           connectorName := Some (name c);
           payload := RequestPayload r |}
        None
  end.

Definition MessageTypes_eqb (a b : MessageTypes) : bool :=
  match a, b with
  | request, request | response, response | event_, event_ => true
  | other_ k, other_ k' => k =? k'
  | _, _ => false
  end.

Definition same_name (o : option string) (n : string) : bool :=
  match o with Some s => s =? n | None => false end.

(** The conjunction is evaluated from the left: [event.type] is read
    only when the origin is the page's, and a read that throws ends the
    evaluation. *)
Definition acceptMessage (c : Connector) (message : MessageEvent)
  : Error + bool :=
  match window c with
  | None => inr false
  | Some window_origin =>
      let event := data message in
      if origin message =? window_origin then
        match read_type event with
        | inl e => inl e
        | inr type_ =>
            inr (negb (MessageTypes_eqb type_ request)
                 && same_name (read_connectorName event) (name c)
                 && same_name (read_target event) CONNECTOR_SCRIPT)
        end
      else inr false
  end.

(** [setupListener]: [onMessage] is attached to the window's messages
    when there is a window. *)
Definition setupListener (c : Connector) : bool :=
  match window c with
  | None => false
  | Some _ => true
  end.

(** A promise nobody awaits: its rejection is reported by the host, its
    value is lost. *)
Definition finish (caller : option nat) (s : Settlement) : list Effect :=
  match caller, s with
  | Some call, _ => [Settled call s]
  | None, RejectedWith e => [UnhandledRejection e]
  | None, Fulfilled _ => []
  end.

(** Modelled from the spec: the emitter the connector inherits from the
    SDK's base class is not among the sources.  Section 4.3: the
    handlers registered for the name are called in registration order;
    with none registered the notification is discarded. *)
Definition handlers_of (n : string) (c : Connector) : list nat :=
  map snd (filter (fun l => fst l =? n) (listeners c)).

(** Modelled from the spec: the RPC client ([JSONRPCClient] of
    json-rpc-2.0) is a dependency, not among the sources.  Section 4.2:
    a request takes a fresh id, is recorded as pending (with a timer when
    a timeout is set) and is handed to the channel; a failure to send
    rejects it. *)
Definition client_request (caller : option nat) (timeout : option nat)
  (method : string) (args : Value) (k : Settlement -> Prog) (c : Connector)
  : Connector * list Effect + Error * Connector :=
  let (id, c1) := createRequestId c in
  match sendRequest c1 (Some (mkRequest id method args)) with
  | inl e => inr (e, c1)
  | inr sent =>
      let entry :=
        mkPending id (option_map (Nat.add (clock c)) timeout) caller k in
      inl (with_pendingRequests (entry :: pendingRequests c1) c1, sent)
  end.

(** Runs a program up to the point where it returns, throws or waits. *)
Fixpoint run (caller : option nat) (p : Prog) (c : Connector)
  : Connector * list Effect :=
  match p with
  | Ret v => (c, finish caller (Fulfilled v))
  | Throw e => (c, finish caller (RejectedWith e))
  | Never => (c, [])
  | Request timeout method args k =>
      match client_request caller timeout method args k c with
      | inl waiting => waiting
      | inr (e, c1) => run caller (k (RejectedWith e)) c1
      end
  | WindowDispatch ty next =>
      let (c1, es) := run caller next c in (c1, DispatchEvent ty :: es)
  | Emit n args next =>
      let (c1, es) := run caller next c in
      (c1, map (fun h => Invoke h args) (handlers_of n c) ++ es)
  | Spawn q next =>
      let (c1, es1) := run None q c in
      let (c2, es2) := run caller next c1 in
      (c2, es1 ++ es2)
  | HasWindow k =>
      run caller (k (match window c with Some _ => true | None => false end)) c
  end.

Definition settlement_of (r : JSONRPCResponse) : Settlement :=
  match response_body r with
  | inr v => Fulfilled v
  | inl e => RejectedWith e
  end.

Definition without_id (id : nat) (l : list Pending) : list Pending :=
  filter (fun p => negb (pending_id p =? id)%nat) l.

(** Modelled from the spec: [client.receive] of the same dependency.
    Section 4.2: a response whose id matches a pending request removes
    the entry and settles it; any other response is ignored. *)
Definition client_receive (r : JSONRPCResponse) (c : Connector)
  : Connector * list Effect :=
  match find (fun p => (pending_id p =? response_id r)%nat) (pendingRequests c) with
  | None => (c, [])
  | Some p =>
      run (pending_caller p) (pending_k p (settlement_of r))
        (with_pendingRequests (without_id (response_id r) (pendingRequests c)) c)
  end.

Definition expired (now : nat) (p : Pending) : bool :=
  match pending_deadline p with
  | Some d => (d <=? now)%nat
  | None => false
  end.

(** Modelled from the spec: the timers of the same dependency.
    Section 4.2: on expiry a timer removes the pending request and
    rejects it with a timeout error.  The timers that are due fire
    oldest first. *)
Definition fire_timers (c : Connector) : Connector * list Effect :=
  let due := rev (filter (expired (clock c)) (pendingRequests c)) in
  let kept := filter (fun p => negb (expired (clock c) p)) (pendingRequests c) in
  fold_left
    (fun (acc : Connector * list Effect) p =>
       let (c1, es) := acc in
       let (c2, es') :=
         run (pending_caller p) (pending_k p (RejectedWith RequestTimeout)) c1 in
       (c2, es ++ es'))
    due (with_pendingRequests kept c, []).

(** ** Application communication methods *)

Definition request_ (timeout : option nat) (method : string) (args : Value) : Prog :=
  Request timeout method args settle.

Definition ping : Prog :=
  request_ (Some 800) "ping" (VObject []).

Definition setupConnector : Prog :=
  HasWindow (fun has_window =>
    if has_window then
      Spawn
        (try_catch
           (_ <- ping ;; WindowDispatch FuelConnectorEventType (Ret VUndefined))
           (fun _ => Ret VUndefined))
        (Ret VUndefined)
    else Ret VUndefined).

Definition onResponse (r : JSONRPCResponse) (c : Connector)
  : Connector * list Effect :=
  client_receive r c.

Fixpoint onEvent (events : list EventData) : Prog :=
  match events with
  | [] => Ret VUndefined
  | eventData :: rest =>
      if event eventData =? "start"
      then Spawn setupConnector (onEvent rest)
      else Emit (event eventData) (params eventData) (onEvent rest)
  end.

Definition onCommunicationMessage (message : CommunicationMessage) (c : Connector)
  : Connector * list Effect :=
  match payload message with
  | ResponsePayload r => onResponse r c
  | EventPayload events => run None (onEvent events) c
  | _ => (c, [])
  end.

(** The listener; what [acceptMessage] throws leaves it uncaught.  The
    data of an accepted message is an object with a target. *)
Definition onMessage (message : MessageEvent) (c : Connector)
  : Connector * list Effect :=
  match acceptMessage c message with
  | inl e => (c, [Uncaught e])
  | inr accepted =>
      if negb accepted then (c, [])
      else match data message with
           | Channel event => onCommunicationMessage event c
           | _ => (c, [])
           end
  end.

(** [new FuelWalletConnector(name)]: the listener is attached when there
    is a window ([setupListener]) and the first readiness probe starts. *)
Definition constructor (name_ : option string) (window_ : option string)
  : Connector * list Effect :=
  let this :=
    mkConnector (match name_ with Some n => n | None => "Fuel Wallet" end)
      window_ 0 0 [] [] in
  run None (Spawn setupConnector (Ret VUndefined)) this.

(** ** Connector methods *)

(** The functions of the SDK ([fuels]) the methods call. *)
Record Provider : Type := mkProvider { url : string }.
Record ChainInfo : Type := mkChainInfo { chain_name : string }.

Class FuelsSDK : Type := {
  transactionRequestify : Value -> Error + Value;
  JSON_stringify : Value -> string;
  JSON_parse : Value -> Error + Value;
  deserializeTransactionResponseJson : Value -> Error + Value;
  Address_fromDynamicInput : Value -> Error + string;
  Provider_new : string -> Error + Provider;
  Provider_getChain : Provider -> Awaited ChainInfo }.

Context {sdk : FuelsSDK}.

Record FuelConnectorSendTxParams : Type := mkSendTxParams {
  onBeforeSend : option (Value -> Awaited Value);
  skipCustomFee : Value;
  provider : Value;
  transactionState : Value;
  transactionSummary : Value }.

Record Prepared : Type := mkPrepared {
  txRequest : Value;
  providerToSend : Value;
  prepared_skipCustomFee : Value;
  prepared_transactionState : Value;
  prepared_transactionSummary : Value }.

Definition field_of {A : Type} (params_ : option A) (f : A -> Value) : Value :=
  match params_ with Some p => f p | None => VUndefined end.

Definition prepareTransactionRequest (transaction : Value)
  (params_ : option FuelConnectorSendTxParams) (k : Prepared -> Prog) : Prog :=
  if negb (truthy transaction) then Throw (JsError "Transaction is required")
  else
    of_result (transactionRequestify transaction) (fun txRequest0 =>
      let finish_ tx :=
        k (mkPrepared tx (field_of params_ provider)
             (field_of params_ skipCustomFee)
             (field_of params_ transactionState)
             (field_of params_ transactionSummary)) in
      match params_ with
      | Some (mkSendTxParams (Some f) _ _ _ _) => await (f txRequest0) finish_
      | _ => finish_ txRequest0
      end).

Definition isConnected : Prog :=
  try_catch (request_ None "isConnected" (VObject []))
    (fun _ => Ret (VBool false)).

Definition connect : Prog := request_ None "connect" (VObject []).

Definition disconnect : Prog := request_ None "disconnect" (VObject []).

Definition accounts : Prog := request_ None "accounts" (VObject []).

Definition currentAccount : Prog :=
  account <- request_ None "currentAccount" (VObject []) ;;
  if negb (truthy account) then Ret VNull
  else of_result (Address_fromDynamicInput account) (fun a => Ret (VString a)).

(** [typeof message === 'string' && !message.trim()] *)
Definition blank_string (message : Value) : bool :=
  match message with
  | VString s => negb (truthy (VString (trim s)))
  | _ => false
  end.

(** [typeof message === 'object' && message !== null && !message.personalSign] *)
Definition unsigned_object (message : Value) : bool :=
  typeof_object message
  && negb (match message with VNull => true | _ => false end)
  && negb (truthy (optional_member message "personalSign")).

Definition signMessage (address : string) (message : Value) : Prog :=
  if blank_string message then Throw (JsError "Message is required")
  else if unsigned_object message then Throw (JsError "Message is required")
  else
    request_ None "signMessage"
      (VObject [("address", VString address); ("message", message)]).

Definition sendTransaction (address : string) (transaction : Value)
  (params_ : option FuelConnectorSendTxParams) : Prog :=
  prepareTransactionRequest transaction params_ (fun p =>
    resp <- request_ None "sendTransaction"
      (VObject [("address", VString address);
                ("transaction", VString (JSON_stringify (txRequest p)));
                ("provider", providerToSend p);
                ("skipCustomFee", prepared_skipCustomFee p);
                ("transactionState", prepared_transactionState p);
                ("transactionSummary", prepared_transactionSummary p);
                ("returnTransactionResponse", VBool true)]) ;;
    let fallback :=
      let id := optional_member resp "id" in
      Ret (if truthy id then id else resp) in
    if typeof_object resp then
      of_result (in_operator "id" resp) (fun has_id =>
        if has_id then
          of_result (in_operator "providerCache" resp) (fun has_cache =>
            if has_cache
            then of_result (deserializeTransactionResponseJson resp) Ret
            else fallback)
        else fallback)
    else fallback).

Definition signTransaction (address : string) (transaction : Value)
  (params_ : option FuelConnectorSendTxParams) : Prog :=
  prepareTransactionRequest transaction params_ (fun p =>
    txRequestSerialized <- request_ None "signTransaction"
      (VObject [("address", VString address);
                ("transaction", VString (JSON_stringify (txRequest p)));
                ("provider", providerToSend p);
                ("skipCustomFee", prepared_skipCustomFee p);
                ("transactionState", prepared_transactionState p);
                ("transactionSummary", prepared_transactionSummary p)]) ;;
    of_result (JSON_parse txRequestSerialized) (fun parsed =>
      of_result (transactionRequestify parsed) Ret)).

Definition assets : Prog := request_ None "assets" (VObject []).

(** Assets as the SDK types them. *)
Inductive Network : Type :=
| NetworkEthereum (chainId decimals : Z) (address : option string)
| NetworkFuel (chainId decimals : Z) (assetId : string) (contractId : option string).

Record Asset : Type := mkAsset {
  asset_name : string;
  symbol : string;
  icon : string;
  networks : list Network }.

Definition is_fuel (n : Network) : bool :=
  match n with NetworkFuel _ _ _ _ => true | NetworkEthereum _ _ _ => false end.

Definition optional_string (o : option string) : Value :=
  match o with Some s => VString s | None => VUndefined end.

Definition Network_value (n : Network) : Value :=
  match n with
  | NetworkEthereum chainId decimals address =>
      VObject [("type", VString "ethereum"); ("chainId", VNumber chainId);
               ("decimals", VNumber decimals); ("address", optional_string address)]
  | NetworkFuel chainId decimals assetId contractId =>
      VObject [("type", VString "fuel"); ("chainId", VNumber chainId);
               ("decimals", VNumber decimals); ("assetId", VString assetId);
               ("contractId", optional_string contractId)]
  end.

Definition Asset_fields (a : Asset) : list (string * Value) :=
  [("name", VString (asset_name a)); ("symbol", VString (symbol a));
   ("icon", VString (icon a)); ("networks", VArray (map Network_value (networks a)))].

(** The callback of [assets.map] in [addAssets]. *)
Definition assetData (asset : Asset) : Error + Value :=
  match find is_fuel (networks asset) with
  | None => inl (JsError "Asset for Fuel Network not found!")
  | Some fuelNetworkAsset =>
      inr (VObject
             (Asset_fields asset ++
              [("imageUrl", VString (icon asset));
               ("decimals", optional_member (Network_value fuelNetworkAsset) "decimals");
               ("assetId", optional_member (Network_value fuelNetworkAsset) "assetId")]))
  end.

Fixpoint map_or_throw {A B : Type} (f : A -> Error + B) (l : list A) : Error + list B :=
  match l with
  | [] => inr []
  | a :: rest =>
      match f a with
      | inl e => inl e
      | inr b =>
          match map_or_throw f rest with
          | inl e => inl e
          | inr bs => inr (b :: bs)
          end
      end
  end.

Definition addAssets (assets_ : list Asset) : Prog :=
  of_result (map_or_throw assetData assets_) (fun assetsData =>
    request_ None "addAssets" (VObject [("assets", VArray assetsData)])).

Definition addAsset (asset : Asset) : Prog :=
  addAssets [asset].

Definition addABI (contractId : string) (abi : Value) : Prog :=
  request_ None "addAbi" (VObject [("abiMap", VObject [(contractId, abi)])]).

Definition getABI (contractId : string) : Prog :=
  request_ None "getAbi" (VObject [("contractId", VString contractId)]).

Definition hasABI (contractId : string) : Prog :=
  abi <- getABI contractId ;; Ret (VBool (truthy abi)).

Definition currentNetwork : Prog := request_ None "network" (VObject []).

Definition selectNetwork (network : Value) : Prog :=
  request_ None "selectNetwork" (VObject [("network", network)]).

Definition networks_ : Prog := request_ None "networks" (VObject []).

Definition addNetwork (networkUrl : string) : Prog :=
  of_result (Provider_new networkUrl) (fun provider_ =>
    await (Provider_getChain provider_) (fun chain =>
      request_ None "addNetwork"
        (VObject [("network",
                   VObject [("url", VString (url provider_));
                            ("name", VString (chain_name chain))])]))).

Definition version : Prog :=
  request_ None "version"
    (VObject [("app", VString "0.0.0"); ("network", VString "0.0.0")]).

(** ** The connector as a state machine *)

Inductive Method : Type :=
| Ping | IsConnected | Connect | Disconnect | Accounts | CurrentAccount
| SignMessage (address : string) (message : Value)
| SendTransaction (address : string) (transaction : Value)
    (params_ : option FuelConnectorSendTxParams)
| SignTransaction (address : string) (transaction : Value)
    (params_ : option FuelConnectorSendTxParams)
| Assets
| AddAsset (asset : Asset)
| AddAssets (assets_ : list Asset)
| AddABI (contractId : string) (abi : Value)
| GetABI (contractId : string)
| HasABI (contractId : string)
| CurrentNetwork
| SelectNetwork (network : Value)
| Networks
| AddNetwork (networkUrl : string)
| Version.

Definition body (m : Method) : Prog :=
  match m with
  | Ping => ping
  | IsConnected => isConnected
  | Connect => connect
  | Disconnect => disconnect
  | Accounts => accounts
  | CurrentAccount => currentAccount
  | SignMessage address message => signMessage address message
  | SendTransaction address transaction params_ =>
      sendTransaction address transaction params_
  | SignTransaction address transaction params_ =>
      signTransaction address transaction params_
  | Assets => assets
  | AddAsset asset => addAsset asset
  | AddAssets assets_ => addAssets assets_
  | AddABI contractId abi => addABI contractId abi
  | GetABI contractId => getABI contractId
  | HasABI contractId => hasABI contractId
  | CurrentNetwork => currentNetwork
  | SelectNetwork network => selectNetwork network
  | Networks => networks_
  | AddNetwork networkUrl => addNetwork networkUrl
  | Version => version
  end.

(** What can happen to a connector: the page calls a method (the call
    is given a number to tell its settlement from the others), the
    window delivers a message, time passes, the page subscribes a
    handler to an event. *)
Inductive Op : Type :=
| Call (call : nat) (m : Method)
| Deliver (message : MessageEvent)
| Advance (ms : nat)
| On (name_ : string) (handler : nat).

Definition step (op : Op) (c : Connector) : Connector * list Effect :=
  match op with
  | Call call m => run (Some call) (body m) c
  | Deliver message =>
      if setupListener c then onMessage message c
      else (c, [])                      (* nobody listens *)
  | Advance ms => fire_timers (with_clock (clock c + ms) c)
  | On n handler => (with_listeners (listeners c ++ [(n, handler)]) c, [])
  end.

Fixpoint steps (ops : list Op) (c : Connector) : Connector * list Effect :=
  match ops with
  | [] => (c, [])
  | op :: rest =>
      let (c1, es1) := step op c in
      let (c2, es2) := steps rest c1 in
      (c2, es1 ++ es2)
  end.

End Connector.

(** ** A page, an SDK and inputs to run the model on *)

Definition page_constants : Constants :=
  {| CONNECTOR_SCRIPT := "FuelConnectorScript";
     CONTENT_SCRIPT_NAME := "FuelContentScript";
     FuelConnectorEventType := "FuelConnector" |}.

Definition sample_sdk : FuelsSDK :=
  {| transactionRequestify v := inr v;
     JSON_stringify _ := "{}";
     JSON_parse v := inr v;
     deserializeTransactionResponseJson v := inr (VObject [("TransactionResponse", v)]);
     Address_fromDynamicInput v :=
       match v with
       | VString s => inr s
       | _ => inl (ForeignError "Invalid address")
       end;
     Provider_new u :=
       if u =? "" then inl (ForeignError "Invalid URL") else inr (mkProvider u);
     Provider_getChain p :=
       if url p =? "http://down.example/graphql"
       then Settles (inl (ForeignError "fetch failed"))
       else Settles (inr (mkChainInfo "Local network")) |}.

Definition page_origin : string := "https://app.example".

(** The connector of a page, right after [new FuelWalletConnector()]. *)
Definition page_connector : Connector :=
  fst (@constructor page_constants None (Some page_origin)).

(** The message the agent's content script posts to answer request [id]
    of connector [c] on a page of origin [o]. *)
Definition agent_reply {constants : Constants} (c : Connector) (o : string)
  (id : nat) (body_ : Error + Value) : MessageEvent :=
  {| origin := o;
     data := Channel {| target := CONNECTOR_SCRIPT;
                        connectorName := Some (name c);
                        payload := ResponsePayload (mkResponse id body_) |} |}.

(** An event notification of the agent. *)
Definition agent_events {constants : Constants} (c : Connector) (o : string)
  (events : list EventData) : MessageEvent :=
  {| origin := o;
     data := Channel {| target := CONNECTOR_SCRIPT;
                        connectorName := Some (name c);
                        payload := EventPayload events |} |}.

(** The request message a call posts. *)
Definition request_message {constants : Constants} (c : Connector) (id : nat)
  (method : string) (args : Value) : CommunicationMessage :=
  {| target := CONTENT_SCRIPT_NAME;
     connectorName := Some (name c);
     payload := RequestPayload (mkRequest id method args) |}.

(** White space throughout. *)
Definition white (l : list ascii) : Prop :=
  Forall (fun a => is_white_space a = true) l.

Definition is_invocation (e : Effect) : bool :=
  match e with Invoke _ _ => true | _ => false end.

Definition is_posted (e : Effect) : bool :=
  match e with PostMessage _ _ => true | _ => false end.

Definition is_start (e : EventData) : bool := event e =? "start".

Definition usdc : Asset :=
  mkAsset "USDC" "USDC" "https://cdn.example/usdc.svg"
    [NetworkEthereum 1 6 (Some "0xa0b8"); NetworkFuel 9889 6 "0x286c" None].

Definition wrapped_only_on_ethereum : Asset :=
  mkAsset "WBTC" "WBTC" "https://cdn.example/wbtc.svg"
    [NetworkEthereum 1 8 (Some "0x2260")].

(** The page's connector with three subscribers, one of them on the
    reserved name. *)
Definition subscribed_connector : Connector :=
  with_listeners [("start", 7); ("accounts", 8); ("accounts", 9)] page_connector.

Definition notification : list EventData :=
  [mkEventData "accounts" [VArray [VString "0x01"]];
   mkEventData "start" [];
   mkEventData "currentAccount" [VString "0x01"];
   mkEventData "accounts" [VArray []]].

(** What a script of the page posts with [window.postMessage(null)],
    and what other scripts post for themselves. *)
Definition null_from_the_page : MessageEvent :=
  {| origin := page_origin; data := Nullish |}.

Definition null_from_elsewhere : MessageEvent :=
  {| origin := "https://evil.example"; data := Nullish |}.

Definition text_from_the_page : MessageEvent :=
  {| origin := page_origin; data := NotAnObject (PString "ready") |}.

Definition object_of_another_protocol : MessageEvent :=
  {| origin := page_origin;
     data := Untargeted (other_ "webpackOk") (Some "Fuel Wallet") |}.

(** Messages of the four kinds the acceptance check refuses. *)
Definition from_another_origin : MessageEvent :=
  {| origin := "https://evil.example";
     data := Channel (mkMessage "FuelConnectorScript" (Some "Fuel Wallet")
                        (ResponsePayload (mkResponse 0 (inr (VBool true))))) |}.

Definition own_request : MessageEvent :=
  {| origin := page_origin;
     data := Channel (mkMessage "FuelConnectorScript" (Some "Fuel Wallet")
                        (RequestPayload (mkRequest 0 "ping" (VObject [])))) |}.

Definition for_another_connector : MessageEvent :=
  {| origin := page_origin;
     data := Channel (mkMessage "FuelConnectorScript" (Some "Fuelet Wallet")
                        (ResponsePayload (mkResponse 0 (inr (VBool true))))) |}.

Definition for_the_content_script : MessageEvent :=
  {| origin := page_origin;
     data := Channel (mkMessage "FuelContentScript" (Some "Fuel Wallet")
                        (ResponsePayload (mkResponse 0 (inr (VBool true))))) |}.

Definition transfer : Value :=
  VObject [("type", VNumber 0); ("gasLimit", VNumber 10000)].

Definition prepared_transfer : Prepared :=
  mkPrepared transfer VUndefined VUndefined VUndefined VUndefined.

(** What a step leaves alone: the identity of the connector and its
    window; a program leaves the clock and the subscribers alone too. *)
Definition same_frame (c c' : Connector) : Prop :=
  name c' = name c /\ window c' = window c /\ clock c' = clock c
  /\ listeners c' = listeners c.

(** Every message a program posts is a request stamped with the name of
    the connector, for the content script, to the page's own origin. *)
Definition stamped {constants : Constants} (c : Connector) (e : Effect) : Prop :=
  match e with
  | PostMessage msg o =>
      connectorName msg = Some (name c) /\ target msg = CONTENT_SCRIPT_NAME
      /\ type msg = request /\ window c = Some o
  | _ => True
  end.

(** ** The operations, one by one *)

(** The RPC method each operation asks the agent for. *)
Definition rpc_method (m : Method) : string :=
  match m with
  | Ping => "ping"
  | IsConnected => "isConnected"
  | Connect => "connect"
  | Disconnect => "disconnect"
  | Accounts => "accounts"
  | CurrentAccount => "currentAccount"
  | SignMessage _ _ => "signMessage"
  | SendTransaction _ _ _ => "sendTransaction"
  | SignTransaction _ _ _ => "signTransaction"
  | Assets => "assets"
  | AddAsset _ | AddAssets _ => "addAssets"
  | AddABI _ _ => "addAbi"
  | GetABI _ | HasABI _ => "getAbi"
  | CurrentNetwork => "network"
  | SelectNetwork _ => "selectNetwork"
  | Networks => "networks"
  | AddNetwork _ => "addNetwork"
  | Version => "version"
  end.

(** The timeout it asks the client for. *)
Definition rpc_timeout (m : Method) : option nat :=
  match m with
  | Ping => Some 800
  | _ => None
  end.

(** The operations that hand the settlement of the request to their
    caller as it is. *)
Definition passes_through (m : Method) : bool :=
  match m with
  | IsConnected | CurrentAccount | HasABI _
  | SendTransaction _ _ _ | SignTransaction _ _ _ => false
  | _ => true
  end.

(** A program that asks the client for nothing more. *)
Inductive terminal : Prog -> Prop :=
| terminal_Ret (v : Value) : terminal (Ret v)
| terminal_Throw (e : Error) : terminal (Throw e)
| terminal_Never : terminal Never
| terminal_WindowDispatch (ty : string) (next : Prog) :
    terminal next -> terminal (WindowDispatch ty next)
| terminal_Emit (n : string) (args : list Value) (next : Prog) :
    terminal next -> terminal (Emit n args next).

(** A program whose requests are each followed by a terminal program. *)
Inductive tame : Prog -> Prop :=
| tame_Ret (v : Value) : tame (Ret v)
| tame_Throw (e : Error) : tame (Throw e)
| tame_Never : tame Never
| tame_Request (timeout : option nat) (method : string) (args : Value)
    (k : Settlement -> Prog) :
    (forall s, terminal (k s)) -> tame (Request timeout method args k)
| tame_WindowDispatch (ty : string) (next : Prog) :
    tame next -> tame (WindowDispatch ty next)
| tame_Emit (n : string) (args : list Value) (next : Prog) :
    tame next -> tame (Emit n args next)
| tame_Spawn (q next : Prog) : tame q -> tame next -> tame (Spawn q next)
| tame_HasWindow (k : bool -> Prog) :
    (forall b, tame (k b)) -> tame (HasWindow k).

Definition is_settled (e : Effect) : bool :=
  match e with Settled _ _ => true | _ => false end.

Definition is_settlement_of (call : nat) (e : Effect) : bool :=
  match e with Settled call' _ => (call' =? call)%nat | _ => false end.

Definition waits_for (call : nat) (p : Pending) : bool :=
  match pending_caller p with
  | Some call' => (call' =? call)%nat
  | None => false
  end.

Definition is_call_of (call : nat) (op : Op) : bool :=
  match op with Call call' _ => (call' =? call)%nat | _ => false end.

(** The requests in flight are each followed by a terminal program. *)
Definition settles_once (c : Connector) : Prop :=
  Forall (fun p => forall s, terminal (pending_k p s)) (pendingRequests c).

(** [const { onBeforeSend } = params || {}] *)
Definition onBeforeSend_of (params_ : option FuelConnectorSendTxParams)
  : option (Value -> Awaited Value) :=
  match params_ with
  | Some p => onBeforeSend p
  | None => None
  end.

(** The operation that sends a transaction, or only has it signed. *)
Definition transaction_call (send : bool) (address : string)
  (transaction : Value) (params_ : option FuelConnectorSendTxParams) : Method :=
  if send then SendTransaction address transaction params_
  else SignTransaction address transaction params_.

Definition count {A : Type} (f : A -> bool) (l : list A) : nat :=
  List.length (filter f l).

(** What a call owes its caller: one settlement. *)
Definition owes (call : nat) (caller : option nat) : nat :=
  match caller with
  | Some call' => if (call' =? call)%nat then 1 else 0
  | None => 0
  end.

(** An error of the agent. *)
Definition wallet_is_locked : Error := AgentError 4 "Wallet is locked".


(** * Properties *)

Section Properties.
Context {constants : Constants} {sdk : FuelsSDK}.

Lemma same_frame_refl (c : Connector) : same_frame c c.
Proof. repeat split. Qed.

Lemma same_frame_trans (a b c : Connector) :
  same_frame a b -> same_frame b c -> same_frame a c.
Proof.
  intros (n1 & w1 & t1 & l1) (n2 & w2 & t2 & l2).
  repeat split; congruence.
Qed.

Lemma run_frame (p : Prog) :
  forall caller c, same_frame c (fst (run caller p c)).
Proof.
  induction p as [v | e | | timeout method args k IH | ty next IH
                 | n args next IH | q IHq next IH | k IH];
    intros caller c; simpl.
  - apply same_frame_refl.
  - apply same_frame_refl.
  - apply same_frame_refl.
  - unfold client_request, createRequestId, sendRequest, postMessage; simpl.
    destruct (window c) eqn:Hw; simpl.
    + repeat split; simpl; auto.
    + eapply same_frame_trans; [ | apply IH ].
      repeat split; simpl; auto.
  - specialize (IH caller c). destruct (run caller next c); exact IH.
  - specialize (IH caller c). destruct (run caller next c); exact IH.
  - specialize (IHq None c). destruct (run None q c) as [c1 es1]; simpl in IHq.
    specialize (IH caller c1). destruct (run caller next c1) as [c2 es2].
    simpl in *. eapply same_frame_trans; eauto.
  - apply IH.
Qed.

Lemma stamped_frame (c c' : Connector) (e : Effect) :
  name c' = name c -> window c' = window c -> stamped c' e -> stamped c e.
Proof.
  intros n w H. destruct e; simpl in *; auto.
  rewrite <- n, <- w. exact H.
Qed.

Lemma run_stamped (p : Prog) :
  forall caller c, Forall (stamped c) (snd (run caller p c)).
Proof.
  induction p as [v | e | | timeout method args k IH | ty next IH
                 | n args next IH | q IHq next IH | k IH];
    intros caller c; simpl.
  - destruct caller; simpl; repeat constructor.
  - destruct caller; simpl; repeat constructor.
  - constructor.
  - unfold client_request, createRequestId, sendRequest, postMessage; simpl.
    destruct (window c) eqn:Hw; simpl.
    + repeat constructor; simpl; auto.
    + eapply Forall_impl; [ | apply IH ].
      intros e. apply stamped_frame; reflexivity.
  - specialize (IH caller c). destruct (run caller next c); simpl in *.
    constructor; simpl; auto.
  - specialize (IH caller c). destruct (run caller next c); simpl in *.
    apply Forall_app; split; auto.
    apply Forall_forall. intros e He. apply in_map_iff in He.
    destruct He as (h & <- & _). exact I.
  - specialize (IHq None c). pose proof (run_frame q None c) as Hf.
    destruct (run None q c) as [c1 es1]; simpl in *.
    specialize (IH caller c1). destruct (run caller next c1) as [c2 es2].
    simpl in *. apply Forall_app; split; auto.
    eapply Forall_impl; [ | exact IH ].
    intros e. apply stamped_frame; apply Hf.
  - apply IH.
Qed.

Lemma client_receive_frame (r : JSONRPCResponse) (c : Connector) :
  same_frame c (fst (client_receive r c)).
Proof.
  unfold client_receive.
  destruct (find _ (pendingRequests c)) as [p | ]; [ | apply same_frame_refl ].
  eapply same_frame_trans; [ | apply run_frame ].
  repeat split.
Qed.

Lemma client_receive_stamped (r : JSONRPCResponse) (c : Connector) :
  Forall (stamped c) (snd (client_receive r c)).
Proof.
  unfold client_receive.
  destruct (find _ (pendingRequests c)) as [p | ]; [ | constructor ].
  eapply Forall_impl; [ | apply run_stamped ].
  intros e. apply stamped_frame; reflexivity.
Qed.

Lemma fire_frame (due : list Pending) :
  forall (c : Connector) (es : list Effect) (c0 : Connector),
    same_frame c0 c -> Forall (stamped c0) es ->
    let r := fold_left
      (fun (acc : Connector * list Effect) p =>
         let (c1, es) := acc in
         let (c2, es') :=
           run (pending_caller p) (pending_k p (RejectedWith RequestTimeout)) c1 in
         (c2, es ++ es'))
      due (c, es) in
    same_frame c0 (fst r) /\ Forall (stamped c0) (snd r).
Proof.
  induction due as [ | p due IH]; intros c es c0 Hf Hs; simpl.
  - split; assumption.
  - pose proof (run_frame (pending_k p (RejectedWith RequestTimeout))
                  (pending_caller p) c) as Hf1.
    pose proof (run_stamped (pending_k p (RejectedWith RequestTimeout))
                  (pending_caller p) c) as Hs1.
    destruct (run (pending_caller p) _ c) as [c2 es2]; simpl in *.
    apply IH.
    + eapply same_frame_trans; eauto.
    + apply Forall_app; split; auto.
      eapply Forall_impl; [ | exact Hs1 ].
      intros e. apply stamped_frame; apply Hf.
Qed.

Ltac timers :=
  unfold fire_timers; simpl; unfold expired; cbn [pending_deadline].

Ltac untouched := simpl; split; [ split; auto | repeat constructor ].

(** A step keeps the name and the window; it stamps what it posts. *)
Lemma step_identity (op : Op) (c : Connector) :
  (name (fst (step op c)) = name c /\ window (fst (step op c)) = window c)
  /\ Forall (stamped c) (snd (step op c)).
Proof.
  destruct op as [call m | message | ms | n handler]; simpl.
  - pose proof (run_frame (body m) (Some call) c) as (Hn & Hw & _).
    split; [ split; assumption | apply run_stamped ].
  - unfold setupListener. destruct (window c) eqn:Hw; [ | untouched ].
    unfold onMessage.
    destruct (acceptMessage c message) as [e | [ | ]]; simpl;
      try solve [ untouched ].
    destruct (data message) as [ | p | t n | msg]; try solve [ untouched ].
    unfold onCommunicationMessage, onResponse.
    destruct (payload msg) as [r | r | events | kind].
    + untouched.
    + pose proof (client_receive_frame r c) as (Hn & Hw' & _).
      split; [ split; congruence | apply client_receive_stamped ].
    + pose proof (run_frame (onEvent events) None c) as (Hn & Hw' & _).
      split; [ split; congruence | apply run_stamped ].
    + untouched.
  - unfold fire_timers.
    match goal with
    | |- context [fold_left ?f ?due (?c1, [])] =>
        pose proof (fire_frame due c1 [] c1 (same_frame_refl c1)
                      (Forall_nil _)) as (Hf & Hs)
    end.
    destruct Hf as (Hn & Hw & _). simpl in *.
    split; [ split; assumption | ].
    eapply Forall_impl; [ | exact Hs ].
    intros e. apply stamped_frame; reflexivity.
  - untouched.
Qed.

Lemma steps_identity (ops : list Op) :
  forall c : Connector,
    (name (fst (steps ops c)) = name c /\ window (fst (steps ops c)) = window c)
    /\ Forall (stamped c) (snd (steps ops c)).
Proof.
  induction ops as [ | op ops IH]; intros c; simpl.
  - untouched.
  - pose proof (step_identity op c) as ((Hn & Hw) & Hs).
    destruct (step op c) as [c1 es1]; simpl in *.
    specialize (IH c1) as ((Hn' & Hw') & Hs').
    destruct (steps ops c1) as [c2 es2]; simpl in *.
    split; [ split; congruence | ].
    apply Forall_app; split; auto.
    eapply Forall_impl; [ | exact Hs' ].
    intros e. apply stamped_frame; assumption.
Qed.

Lemma same_name_eq (o : option string) (n : string) :
  same_name o n = true <-> o = Some n.
Proof.
  destruct o as [s | ]; simpl.
  - rewrite String.eqb_eq. split; congruence.
  - split; discriminate.
Qed.

Lemma not_request_eq (t : MessageTypes) :
  negb (MessageTypes_eqb t request) = true <-> t <> request.
Proof.
  destruct t; simpl; split; congruence.
Qed.

Lemma acceptMessage_checks (c : Connector) (m : MessageEvent) :
  acceptMessage c m = inr true <->
  exists event,
    data m = Channel event
    /\ window c = Some (origin m) /\ type event <> request
    /\ connectorName event = Some (name c)
    /\ target event = CONNECTOR_SCRIPT.
Proof.
  unfold acceptMessage. destruct (window c) as [o | ].
  - destruct (origin m =? o) eqn:Ho.
    + apply String.eqb_eq in Ho. subst o.
      destruct (data m) as [ | p | t n | msg]; cbn [read_type];
        try (split;
             [ intros H; try discriminate H; injection H as H;
               rewrite !andb_true_iff in H; destruct H as ((_ & Hn) & Hg);
               simpl in Hn, Hg; discriminate
             | intros (msg & He & _); discriminate ]).
      cbn [read_connectorName read_target]. split.
      * intros H. injection H as H.
        rewrite !andb_true_iff, !same_name_eq, not_request_eq in H.
        destruct H as ((Ht & Hn) & Hg). apply String.eqb_eq in Hg.
        exists msg. auto.
      * intros (msg' & He & _ & Ht & Hn & Hg). injection He as <-.
        f_equal.
        rewrite !andb_true_iff, !same_name_eq, not_request_eq.
        rewrite Hg. auto.
    + split; [ discriminate | ].
      intros (msg & _ & Hw & _). injection Hw as ->.
      rewrite String.eqb_refl in Ho. discriminate.
  - split; [ discriminate | intros (msg & _ & Hw & _); discriminate ].
Qed.

(** [acceptMessage] throws on one kind of message only: data that is
    [null] or [undefined], from the page's own origin. *)
Lemma acceptMessage_throws (c : Connector) (m : MessageEvent) (e : Error) :
  acceptMessage c m = inl e <->
  data m = Nullish /\ window c = Some (origin m)
  /\ e = TypeError "Cannot read properties of null or undefined".
Proof.
  unfold acceptMessage. destruct (window c) as [o | ].
  - destruct (origin m =? o) eqn:Ho.
    + apply String.eqb_eq in Ho. subst o.
      destruct (data m) as [ | p | t n | msg]; simpl;
        try (split; [ discriminate | intros (Hd & _); discriminate ]).
      split; [ intros H; injection H as <-; auto | ].
      intros (_ & _ & ->). reflexivity.
    + split; [ discriminate | ].
      intros (_ & Hw & _). injection Hw as ->.
      rewrite String.eqb_refl in Ho. discriminate.
  - split; [ discriminate | intros (_ & Hw & _); discriminate ].
Qed.

(** C1. An inbound message is handed to the dispatcher (which passes a
    response to the RPC client and an event notification to the event
    router) if and only if the four checks hold: its origin is the
    page's, its kind is not [request], it carries the name of the
    connector and it targets [CONNECTOR_SCRIPT]; a message that
    [acceptMessage] refuses leaves the connector as it was and has no
    effect.  One kind of message is neither accepted nor refused: data
    that is [null] or [undefined], from the page's own origin, makes
    [acceptMessage] throw a TypeError when it reads [event.type]; the
    connector is left as it was and the error leaves the listener
    uncaught. *)
Theorem onMessage_hands_over_iff_accepted (c : Connector) (m : MessageEvent) :
  (acceptMessage c m = inr true <->
     exists event,
       data m = Channel event
       /\ window c = Some (origin m) /\ type event <> request
       /\ connectorName event = Some (name c)
       /\ target event = CONNECTOR_SCRIPT)
  /\ (forall event,
        acceptMessage c m = inr true -> data m = Channel event ->
        step (Deliver m) c = onCommunicationMessage event c
        /\ (forall r, payload event = ResponsePayload r ->
                      step (Deliver m) c = client_receive r c)
        /\ (forall events, payload event = EventPayload events ->
                      step (Deliver m) c = run None (onEvent events) c))
  /\ (acceptMessage c m = inr false -> step (Deliver m) c = (c, []))
  /\ (forall e,
        acceptMessage c m = inl e <->
        data m = Nullish /\ window c = Some (origin m)
        /\ e = TypeError "Cannot read properties of null or undefined")
  /\ (forall e,
        acceptMessage c m = inl e -> step (Deliver m) c = (c, [Uncaught e])).
Proof.
  split; [ apply acceptMessage_checks | ].
  split; [ | split; [ | split; [ apply acceptMessage_throws | ] ] ].
  - intros event Hacc Hd.
    pose proof (proj1 (acceptMessage_checks c m) Hacc) as (ev & _ & Hw & _).
    assert (Hstep : step (Deliver m) c = onCommunicationMessage event c).
    { simpl. unfold setupListener. rewrite Hw.
      unfold onMessage. rewrite Hacc, Hd. reflexivity. }
    split; [ exact Hstep | ].
    rewrite Hstep. unfold onCommunicationMessage, onResponse.
    split; [ intros r -> | intros events -> ]; reflexivity.
  - intros Hacc. simpl. unfold onMessage. rewrite Hacc.
    destruct (setupListener c); reflexivity.
  - intros e Hacc.
    pose proof (proj1 (acceptMessage_throws c m e) Hacc) as (_ & Hw & _).
    simpl. unfold setupListener. rewrite Hw.
    unfold onMessage. rewrite Hacc. reflexivity.
Qed.

(** C9. The name given to the constructor (["Fuel Wallet"] by default)
    is the name of the connector after any sequence of calls, messages,
    timer expiries and subscriptions; every request posted on the way is
    stamped with it and every message accepted carries it. *)
Theorem name_set_at_construction_never_mutated
  (n w : option string) (ops : list Op) :
  let created := constructor n w in
  let c := fst (steps ops (fst created)) in
  name (fst created) = match n with Some s => s | None => "Fuel Wallet" end
  /\ name c = name (fst created)
  /\ (forall msg o,
        In (PostMessage msg o) (snd created ++ snd (steps ops (fst created))) ->
        connectorName msg = Some (name (fst created)))
  /\ (forall m, acceptMessage c m = inr true ->
                exists event,
                  data m = Channel event
                  /\ connectorName event = Some (name (fst created))).
Proof.
  intros created c.
  set (this := mkConnector (match n with Some s => s | None => "Fuel Wallet" end)
                 w 0 0 [] []).
  assert (Hf0 : same_frame this (fst created))
    by apply (run_frame (Spawn setupConnector (Ret VUndefined)) None this).
  assert (Hs0 : Forall (stamped this) (snd created))
    by apply (run_stamped (Spawn setupConnector (Ret VUndefined)) None this).
  destruct Hf0 as (Hn0 & Hw0 & _).
  pose proof (steps_identity ops (fst created)) as ((Hn & Hw) & Hs).
  fold c in Hn, Hw.
  split; [ exact Hn0 | ]. split; [ exact Hn | ]. split.
  - intros msg o Hin. apply in_app_or in Hin. destruct Hin as [Hin | Hin].
    + rewrite Forall_forall in Hs0. specialize (Hs0 _ Hin) as (Hc & _).
      rewrite Hc, Hn0. reflexivity.
    + rewrite Forall_forall in Hs. specialize (Hs _ Hin) as (Hc & _).
      exact Hc.
  - intros m Hacc.
    apply acceptMessage_checks in Hacc as (event & Hd & _ & _ & Hc & _).
    exists event. split; [ exact Hd | ]. rewrite Hc, Hn. reflexivity.
Qed.

(** A request on a page is posted and waits; without a window it
    cannot be sent. *)
Lemma client_request_window (caller timeout : option nat) (method : string)
  (args : Value) (k : Settlement -> Prog) (c : Connector) (o : string) :
  window c = Some o ->
  client_request caller timeout method args k c =
    inl (with_pendingRequests
           (mkPending (nextId c) (option_map (Nat.add (clock c)) timeout) caller k
              :: pendingRequests c)
           (with_nextId (S (nextId c)) c),
         [PostMessage (request_message c (nextId c) method args) o]).
Proof.
  intros Hw. unfold client_request, createRequestId, sendRequest, postMessage.
  cbn. rewrite Hw. reflexivity.
Qed.

Lemma client_request_no_window (caller timeout : option nat) (method : string)
  (args : Value) (k : Settlement -> Prog) (c : Connector) :
  window c = None ->
  client_request caller timeout method args k c =
    inr (ReferenceError "window is not defined", with_nextId (S (nextId c)) c).
Proof.
  intros Hw. unfold client_request, createRequestId, sendRequest, postMessage.
  cbn. rewrite Hw. reflexivity.
Qed.

(** The readiness handshake: nothing without a window; with one, a
    ping is posted and its request waits, with a timer of 800 ms, for a
    settlement that announces the connector on success and does nothing
    on failure. *)
Lemma setupConnector_runs (c : Connector) :
  match window c with
  | None => run None setupConnector c = (c, [])
  | Some o =>
      exists k,
        run None setupConnector c =
          (with_pendingRequests
             (mkPending (nextId c) (Some (clock c + 800)) None k
                :: pendingRequests c)
             (with_nextId (S (nextId c)) c),
           [PostMessage (request_message c (nextId c) "ping" (VObject [])) o])
        /\ forall s c',
             run None (k s) c' =
               (c', match s with
                    | Fulfilled _ => [DispatchEvent FuelConnectorEventType]
                    | RejectedWith _ => []
                    end)
  end.
Proof.
  destruct (window c) as [o | ] eqn:Hw.
  - eexists. split.
    + simpl. rewrite Hw. simpl.
      rewrite (client_request_window _ _ _ _ _ _ _ Hw). simpl.
      reflexivity.
    + intros [v | e] c'; reflexivity.
  - simpl. rewrite Hw. reflexivity.
Qed.

Lemma handlers_of_frame (n : string) (c c' : Connector) :
  listeners c' = listeners c -> handlers_of n c' = handlers_of n c.
Proof. unfold handlers_of. intros ->. reflexivity. Qed.

Lemma invocations_only (args : list Value) (hs : list nat) :
  filter is_invocation (map (fun h => Invoke h args) hs)
  = map (fun h => Invoke h args) hs
  /\ filter is_posted (map (fun h => Invoke h args) hs) = [].
Proof.
  induction hs as [ | h hs (IH1 & IH2)]; simpl; [ auto | ].
  rewrite IH1, IH2. auto.
Qed.

Lemma onEvent_effects (o : string) (events : list EventData) :
  forall c : Connector,
    window c = Some o ->
    filter is_invocation (snd (run None (onEvent events) c))
    = flat_map
        (fun e => map (fun h => Invoke h (params e)) (handlers_of (event e) c))
        (filter (fun e => negb (is_start e)) events)
    /\ filter is_posted (snd (run None (onEvent events) c))
      = map (fun i =>
               PostMessage
                 (request_message c (nextId c + i) "ping" (VObject [])) o)
          (seq 0 (List.length (filter is_start events))).
Proof.
  induction events as [ | e rest IH]; intros c Hw; [ simpl; auto | ].
  simpl. fold (is_start e). destruct (is_start e) eqn:He; simpl.
  - pose proof (setupConnector_runs c) as Hsetup. rewrite Hw in Hsetup.
    destruct Hsetup as (k & Hrun & _).
    change (run None setupConnector c) with
      (run None (HasWindow (fun has_window =>
         if has_window then
           Spawn
             (try_catch
                (_ <- ping ;; WindowDispatch FuelConnectorEventType (Ret VUndefined))
                (fun _ => Ret VUndefined))
             (Ret VUndefined)
         else Ret VUndefined)) c) in Hrun.
    simpl in Hrun. rewrite Hrun. clear Hrun.
    match goal with
    | |- context [run None (onEvent rest) ?c1] =>
        specialize (IH c1 Hw) as (IH1 & IH2);
        destruct (run None (onEvent rest) c1) as [c2 es2]
    end.
    simpl in *. rewrite IH1, IH2. split; [ reflexivity | ].
    rewrite Nat.add_0_r. f_equal.
    rewrite <- seq_shift, map_map. apply map_ext. intros i.
    unfold request_message. simpl.
    rewrite (Nat.add_succ_r (nextId c) i). reflexivity.
  - specialize (IH c Hw) as (IH1 & IH2).
    destruct (run None (onEvent rest) c) as [c1 es1]. simpl in *.
    rewrite !filter_app, IH1, IH2.
    destruct (invocations_only (params e) (handlers_of (event e) c))
      as (-> & ->).
    auto.
Qed.

Lemma accept_reply (c : Connector) (o : string) (id : nat) (b : Error + Value) :
  window c = Some o -> acceptMessage c (agent_reply c o id b) = inr true.
Proof.
  intros Hw. apply acceptMessage_checks. simpl. rewrite Hw.
  eexists. repeat split. discriminate.
Qed.

Lemma accept_events (c : Connector) (o : string) (events : list EventData) :
  window c = Some o -> acceptMessage c (agent_events c o events) = inr true.
Proof.
  intros Hw. apply acceptMessage_checks. simpl. rewrite Hw.
  eexists. repeat split. discriminate.
Qed.

(** On a page, the reply of the agent reaches the RPC client. *)
Lemma deliver_reply (c : Connector) (o : string) (id : nat) (b : Error + Value) :
  window c = Some o ->
  step (Deliver (agent_reply c o id b)) c = client_receive (mkResponse id b) c.
Proof.
  intros Hw. simpl. unfold setupListener. rewrite Hw. unfold onMessage.
  rewrite (accept_reply c o id b Hw). reflexivity.
Qed.

Lemma deliver_events (c : Connector) (o : string) (events : list EventData) :
  window c = Some o ->
  step (Deliver (agent_events c o events)) c = run None (onEvent events) c.
Proof.
  intros Hw. simpl. unfold setupListener. rewrite Hw. unfold onMessage.
  rewrite (accept_events c o events Hw). reflexivity.
Qed.

(** C4. The tuples of an event notification are processed in array
    order: the effects of the first tuple come before those of the
    rest.  Subscribers are called for the tuples whose name is not
    ["start"], in that order, each with the tuple's parameter list; a
    ["start"] tuple calls no subscriber, not even one registered for
    ["start"], and starts the readiness handshake instead, which posts
    one ping per such tuple. *)
Theorem onEvent_keeps_start_from_subscribers
  (c : Connector) (o : string) (events : list EventData)
  (Hw : window c = Some o) :
  let effects := snd (step (Deliver (agent_events c o events)) c) in
  filter is_invocation effects
  = flat_map
      (fun e => map (fun h => Invoke h (params e)) (handlers_of (event e) c))
      (filter (fun e => negb (is_start e)) events)
  /\ filter is_posted effects
    = map (fun i =>
             PostMessage
               (request_message c (nextId c + i) "ping" (VObject [])) o)
        (seq 0 (List.length (filter is_start events)))
  /\ (forall e rest c',
        run None (onEvent (e :: rest)) c' =
          let (c1, es1) :=
            if is_start e then run None setupConnector c'
            else (c', map (fun h => Invoke h (params e))
                        (handlers_of (event e) c')) in
          let (c2, es2) := run None (onEvent rest) c1 in
          (c2, es1 ++ es2)).
Proof.
  intros effects. unfold effects. rewrite (deliver_events c o events Hw).
  destruct (onEvent_effects o events c Hw) as (Hi & Hp).
  split; [ exact Hi | ]. split; [ exact Hp | ].
  intros e rest c'. simpl. fold (is_start e).
  destruct (is_start e); simpl.
  - reflexivity.
  - destruct (run None (onEvent rest) c'); reflexivity.
Qed.

(** C7. The constructor starts the readiness probe: a ping, with a
    timer of 800 ms.  The presence event is dispatched when the probe
    succeeds, and only then: an error reply, the expiry of the timer
    and a reply that comes after it dispatch nothing, and none of them
    surfaces as a rejection.  Without a window there is no probe and no
    announcement.  The handshake that a ["start"] event runs again
    behaves the same on any connector. *)
Theorem announcement_iff_probe_succeeds
  (c : Connector) (n : option string) (o : string) :
  let created := constructor n (Some o) in
  let c0 := fst created in
  snd created = [PostMessage (request_message c0 0 "ping" (VObject [])) o]
  /\ (forall v, snd (step (Deliver (agent_reply c0 o 0 (inr v))) c0)
                = [DispatchEvent FuelConnectorEventType])
  /\ (forall e, snd (step (Deliver (agent_reply c0 o 0 (inl e))) c0) = [])
  /\ (forall ms, snd (step (Advance ms) c0) = [])
  /\ (forall ms b, 800 <= ms ->
        snd (steps [Advance ms; Deliver (agent_reply c0 o 0 b)] c0) = [])
  /\ snd (constructor n None) = []
  /\ match window c with
     | None => run None setupConnector c = (c, [])
     | Some o' =>
         exists k,
           run None setupConnector c =
             (with_pendingRequests
                (mkPending (nextId c) (Some (clock c + 800)) None k
                   :: pendingRequests c)
                (with_nextId (S (nextId c)) c),
              [PostMessage (request_message c (nextId c) "ping" (VObject [])) o'])
           /\ forall s c',
                run None (k s) c' =
                  (c', match s with
                       | Fulfilled _ => [DispatchEvent FuelConnectorEventType]
                       | RejectedWith _ => []
                       end)
     end.
Proof.
  intros created c0.
  assert (Hw0 : window c0 = Some o) by reflexivity.
  split; [ reflexivity | ].
  split; [ intros v; rewrite (deliver_reply c0 o 0 _ Hw0); reflexivity | ].
  split; [ intros e; rewrite (deliver_reply c0 o 0 _ Hw0); reflexivity | ].
  split.
  { intros ms. simpl. timers.
    destruct (800 <=? ms)%nat; reflexivity. }
  split.
  { intros ms b Hms. simpl. timers.
    apply Nat.leb_le in Hms. rewrite Hms. simpl.
    unfold onMessage, acceptMessage. simpl.
    rewrite !String.eqb_refl. reflexivity. }
  split; [ reflexivity | ].
  apply setupConnector_runs.
Qed.

(** A request of a call on a page: the message is posted and the call
    waits for the settlement. *)
Lemma run_request (caller timeout : option nat) (method : string) (args : Value)
  (k : Settlement -> Prog) (c : Connector) (o : string) :
  window c = Some o ->
  run caller (Request timeout method args k) c =
    (with_pendingRequests
       (mkPending (nextId c) (option_map (Nat.add (clock c)) timeout) caller k
          :: pendingRequests c)
       (with_nextId (S (nextId c)) c),
     [PostMessage (request_message c (nextId c) method args) o]).
Proof.
  intros Hw. simpl. rewrite (client_request_window _ _ _ _ _ _ _ Hw).
  reflexivity.
Qed.

(** The response to the newest request settles it. *)
Lemma client_receive_newest (id : nat) (b : Error + Value)
  (deadline caller : option nat) (k : Settlement -> Prog)
  (older : list Pending) (c : Connector) :
  client_receive (mkResponse id b)
    (with_pendingRequests (mkPending id deadline caller k :: older) c)
  = run caller (k (settlement_of (mkResponse id b)))
      (with_pendingRequests (without_id id older) c).
Proof.
  unfold client_receive, without_id. simpl. rewrite Nat.eqb_refl. reflexivity.
Qed.

(** A call that is one request followed by [after], answered at once:
    what the page observes. *)
Lemma request_then_reply (call : nat) (timeout : option nat) (method : string)
  (args : Value) (k : Settlement -> Prog) (c : Connector) (o : string)
  (b : Error + Value) :
  window c = Some o ->
  let waiting := run (Some call) (Request timeout method args k) c in
  snd (step (Deliver (agent_reply c o (nextId c) b)) (fst waiting))
  = snd (run (Some call) (k (settlement_of (mkResponse (nextId c) b)))
           (with_pendingRequests (without_id (nextId c) (pendingRequests c))
              (with_nextId (S (nextId c)) c))).
Proof.
  intros Hw waiting. unfold waiting. rewrite (run_request _ _ _ _ _ _ _ Hw).
  cbn [fst].
  change (agent_reply c o (nextId c) b) with
    (agent_reply
       (with_pendingRequests
          (mkPending (nextId c) (option_map (Nat.add (clock c)) timeout)
             (Some call) k :: pendingRequests c)
          (with_nextId (S (nextId c)) c)) o (nextId c) b).
  rewrite deliver_reply by exact Hw.
  rewrite (client_receive_newest (nextId c) b _ (Some call) k
             (pendingRequests c) (with_nextId (S (nextId c)) c)).
  reflexivity.
Qed.

(** [isConnected] never rejects: whenever its request settles, a
    result is returned as it is, and an error of the agent or a failure
    to send gives [false].  [ping] is the call with the timer of
    800 ms, and the settlement of its request, rejection included, is
    the settlement of the call. *)
Lemma isConnected_swallows_and_ping_propagates (c : Connector) (call : nat) :
  (window c = None ->
     step (Call call IsConnected) c
     = (with_nextId (S (nextId c)) c, [Settled call (Fulfilled (VBool false))]))
  /\ (forall o, window c = Some o ->
       (exists deadline k,
          step (Call call IsConnected) c
          = (with_pendingRequests
               (mkPending (nextId c) deadline (Some call) k :: pendingRequests c)
               (with_nextId (S (nextId c)) c),
             [PostMessage
                (request_message c (nextId c) "isConnected" (VObject [])) o])
          /\ forall s c',
               run (Some call) (k s) c'
               = (c', [Settled call
                         (Fulfilled match s with
                                    | Fulfilled v => v
                                    | RejectedWith _ => VBool false
                                    end)]))
       /\ (forall b,
             snd (step (Deliver (agent_reply c o (nextId c) b))
                    (fst (step (Call call IsConnected) c)))
             = [Settled call
                  (Fulfilled match b with
                             | inr v => v
                             | inl _ => VBool false
                             end)])
       /\ (exists k,
             step (Call call Ping) c
             = (with_pendingRequests
                  (mkPending (nextId c) (Some (clock c + 800)) (Some call) k
                     :: pendingRequests c)
                  (with_nextId (S (nextId c)) c),
                [PostMessage
                   (request_message c (nextId c) "ping" (VObject [])) o])
             /\ forall s c', run (Some call) (k s) c' = (c', [Settled call s]))).
Proof.
  split.
  - intros Hw. simpl.
    rewrite (client_request_no_window _ _ _ _ _ _ Hw). reflexivity.
  - intros o Hw. split; [ | split ].
    + do 2 eexists. split.
      * simpl. rewrite (client_request_window _ _ _ _ _ _ _ Hw). reflexivity.
      * intros [v | e] c'; reflexivity.
    + intros b.
      change (step (Call call IsConnected) c) with
        (run (Some call)
           (Request None "isConnected" (VObject [])
              (fun s => try_catch (settle s) (fun _ => Ret (VBool false)))) c).
      rewrite (request_then_reply call None _ _ _ c o b Hw).
      destruct b as [e | v]; reflexivity.
    + eexists. split.
      * simpl. rewrite (client_request_window _ _ _ _ _ _ _ Hw). reflexivity.
      * intros [v | e] c'; reflexivity.
Qed.

(** C2. The code falls short of the claim on [isConnected].  The
    request of [isConnected] carries no timer: with no reply the call
    is still waiting after 800 ms, and after any time, where the claim
    and the comment in the method (a wallet that does not exist gives
    [false]) want it resolved to [false].  The timer of 800 ms is armed
    by [ping] alone, next to it, and the call of [ping] rejects when it
    fires. *)
Theorem isConnected_waits_without_a_timer
  (n : option string) (o : string) (call ms : nat) :
  let c0 := fst (constructor n (Some o)) in
  let waiting := steps [Call call IsConnected; Advance ms] c0 in
  snd waiting
  = [PostMessage (request_message c0 1 "isConnected" (VObject [])) o]
  /\ (exists k,
        In (mkPending 1 None (Some call) k) (pendingRequests (fst waiting)))
  /\ snd (steps [Call call Ping; Advance ms] c0)
     = PostMessage (request_message c0 1 "ping" (VObject [])) o
       :: (if (800 <=? ms)%nat
           then [Settled call (RejectedWith RequestTimeout)]
           else []).
Proof.
  intros c0 waiting. unfold waiting. clear waiting.
  split; [ | split ].
  - simpl. timers. destruct (800 <=? ms)%nat; reflexivity.
  - eexists. simpl. timers.
    destruct (800 <=? ms)%nat; simpl; left; reflexivity.
  - destruct (800 <=? ms)%nat eqn:Hlate;
      simpl; timers; rewrite Hlate; reflexivity.
Qed.

(** C3, as the code has it.  Once the request of [sendTransaction] is
    answered with a result: an object that has both [id] and
    [providerCache] goes through [deserializeTransactionResponseJson]; a
    string is returned as it is; an object that has [id] but no
    [providerCache] gives its [id] when that is truthy, and is returned
    whole when its [id] is falsy (the empty string, say). *)
Theorem sendTransaction_result_by_shape
  (c : Connector) (o : string) (call : nat) (address : string)
  (transaction : Value) (params_ : option FuelConnectorSendTxParams)
  (p : Prepared)
  (Hw : window c = Some o)
  (Hp : forall k, prepareTransactionRequest transaction params_ k = k p) :
  let sent := step (Call call (SendTransaction address transaction params_)) c in
  let answer resp :=
    snd (step (Deliver (agent_reply c o (nextId c) (inr resp))) (fst sent)) in
  snd sent
  = [PostMessage
       (request_message c (nextId c) "sendTransaction"
          (VObject [("address", VString address);
                    ("transaction", VString (JSON_stringify (txRequest p)));
                    ("provider", providerToSend p);
                    ("skipCustomFee", prepared_skipCustomFee p);
                    ("transactionState", prepared_transactionState p);
                    ("transactionSummary", prepared_transactionSummary p);
                    ("returnTransactionResponse", VBool true)])) o]
  /\ (forall fields i cache,
        lookup_field "id" fields = Some i ->
        lookup_field "providerCache" fields = Some cache ->
        answer (VObject fields)
        = [Settled call
             match deserializeTransactionResponseJson (VObject fields) with
             | inr response_ => Fulfilled response_
             | inl e => RejectedWith e
             end])
  /\ (forall s, answer (VString s) = [Settled call (Fulfilled (VString s))])
  /\ (forall fields i,
        lookup_field "id" fields = Some i ->
        lookup_field "providerCache" fields = None ->
        answer (VObject fields)
        = [Settled call (Fulfilled (if truthy i then i else VObject fields))]).
Proof.
  intros sent answer. unfold answer, sent. clear sent answer.
  change (step (Call call (SendTransaction address transaction params_)) c)
    with (run (Some call) (sendTransaction address transaction params_) c).
  unfold sendTransaction. rewrite Hp.
  change (bind (request_ None ?m ?a) ?f) with
    (Request None m a (fun s => bind (settle s) f)).
  split; [ rewrite (run_request _ _ _ _ _ _ _ Hw); reflexivity | ].
  split; [ | split ].
  - intros fields i cache Hi Hc.
    rewrite (request_then_reply call None _ _ _ c o _ Hw).
    cbn. rewrite Hi, Hc. cbn.
    destruct (deserializeTransactionResponseJson (VObject fields));
      reflexivity.
  - intros s. rewrite (request_then_reply call None _ _ _ c o _ Hw).
    reflexivity.
  - intros fields i Hi Hc.
    rewrite (request_then_reply call None _ _ _ c o _ Hw).
    cbn. rewrite Hi, Hc. cbn. destruct (truthy i); reflexivity.
Qed.

(** ** Validation of the arguments *)

Lemma drop_white_space_nil (l : list ascii) :
  drop_white_space l = [] <-> white l.
Proof.
  induction l as [ | a l IH]; simpl.
  - split; [ constructor | reflexivity ].
  - destruct (is_white_space a) eqn:Ha.
    + rewrite IH. split; [ constructor; assumption | ].
      intros H. inversion H; assumption.
    + split; [ discriminate | ].
      intros H. inversion H; congruence.
Qed.

Lemma drop_white_space_head (l : list ascii) :
  drop_white_space l = []
  \/ exists a rest, drop_white_space l = a :: rest /\ is_white_space a = false.
Proof.
  induction l as [ | a l IH]; simpl; [ left; reflexivity | ].
  destruct (is_white_space a) eqn:Ha; [ exact IH | ].
  right. exists a, l. auto.
Qed.

Lemma string_of_list_ascii_empty (l : list ascii) :
  string_of_list_ascii l = "" <-> l = [].
Proof. destruct l; simpl; split; congruence. Qed.

Lemma rev_nil_iff {A : Type} (l : list A) : rev l = [] <-> l = [].
Proof.
  split; intros H.
  - rewrite <- (rev_involutive l), H. reflexivity.
  - rewrite H. reflexivity.
Qed.

(** [s.trim()] is empty exactly when [s] is white space throughout. *)
Lemma trim_empty (s : string) :
  trim s = "" <-> white (list_ascii_of_string s).
Proof.
  unfold trim.
  rewrite string_of_list_ascii_empty, rev_nil_iff, drop_white_space_nil.
  set (l := list_ascii_of_string s). split.
  - intros H. apply drop_white_space_nil.
    destruct (drop_white_space_head l) as [Hnil | (a & rest & Hd & Ha)];
      [ exact Hnil | ].
    apply Forall_rev in H. rewrite rev_involutive, Hd in H.
    inversion H; congruence.
  - intros H. apply drop_white_space_nil in H. rewrite H. constructor.
Qed.

Lemma blank_string_white (s : string) :
  blank_string (VString s) = true <-> white (list_ascii_of_string s).
Proof.
  rewrite <- trim_empty. simpl. rewrite negb_involutive. apply String.eqb_eq.
Qed.

Lemma unsigned_object_fields (fields : list (string * Value)) :
  unsigned_object (VObject fields) = true <->
  match lookup_field "personalSign" fields with
  | Some v => truthy v = false
  | None => True
  end.
Proof.
  unfold unsigned_object. simpl.
  destruct (lookup_field "personalSign" fields) as [v | ]; simpl.
  - apply negb_true_iff.
  - split; auto.
Qed.

(** C6, as the code has it.  [signMessage] rejects with ["Message is
    required"], before anything is sent, a string that is empty or white
    space throughout and an object (not [null]) whose [personalSign] is
    missing or falsy; any other message gives exactly one request. *)
Theorem signMessage_validates_before_sending
  (c : Connector) (o : string) (call : nat) (address : string)
  (message : Value) (Hw : window c = Some o) :
  step (Call call (SignMessage address message)) c
  = (if blank_string message || unsigned_object message
     then (c, [Settled call (RejectedWith (JsError "Message is required"))])
     else (with_pendingRequests
             (mkPending (nextId c) None (Some call) settle :: pendingRequests c)
             (with_nextId (S (nextId c)) c),
           [PostMessage
              (request_message c (nextId c) "signMessage"
                 (VObject [("address", VString address); ("message", message)]))
              o]))
  /\ (forall s, message = VString s ->
        (blank_string message || unsigned_object message = true
         <-> white (list_ascii_of_string s)))
  /\ (forall fields, message = VObject fields ->
        (blank_string message || unsigned_object message = true
         <-> match lookup_field "personalSign" fields with
             | Some v => truthy v = false
             | None => True
             end)).
Proof.
  split; [ | split ].
  - cbn [step body]. unfold signMessage.
    destruct (blank_string message); [ reflexivity | ].
    destruct (unsigned_object message); [ reflexivity | ].
    cbn [orb]. unfold request_.
    apply (run_request (Some call) None _ _ _ _ _ Hw).
  - intros s ->. rewrite <- blank_string_white.
    change (unsigned_object (VString s)) with false.
    rewrite orb_false_r. reflexivity.
  - intros fields ->. rewrite <- unsigned_object_fields. reflexivity.
Qed.

(** ** Assets *)

Lemma find_is_fuel_none (l : list Network) :
  find is_fuel l = None <-> Forall (fun n => is_fuel n = false) l.
Proof.
  induction l as [ | n l IH]; simpl.
  - split; [ constructor | reflexivity ].
  - destruct (is_fuel n) eqn:Hn.
    + split; [ discriminate | ]. intros H. inversion H; congruence.
    + rewrite IH. split; [ constructor; assumption | ].
      intros H. inversion H; assumption.
Qed.

Lemma find_is_fuel_some (l : list Network) :
  Exists (fun n => is_fuel n = true) l ->
  exists chainId decimals assetId contractId,
    find is_fuel l = Some (NetworkFuel chainId decimals assetId contractId).
Proof.
  induction l as [ | n l IH]; intros H; [ inversion H | ].
  simpl. destruct n as [ch d a | ch d a ct]; simpl.
  - inversion H as [? ? Hn | ? ? Hl]; [ discriminate Hn | exact (IH Hl) ].
  - exists ch, d, a, ct. reflexivity.
Qed.

Lemma assetData_missing (a : Asset) :
  Forall (fun n => is_fuel n = false) (networks a) ->
  assetData a = inl (JsError "Asset for Fuel Network not found!").
Proof.
  intros H. apply find_is_fuel_none in H. unfold assetData. rewrite H.
  reflexivity.
Qed.

Lemma assetData_found (a : Asset) :
  Exists (fun n => is_fuel n = true) (networks a) ->
  exists chainId decimals assetId contractId,
    find is_fuel (networks a)
    = Some (NetworkFuel chainId decimals assetId contractId)
    /\ assetData a
       = inr (VObject
                (Asset_fields a ++
                 [("imageUrl", VString (icon a));
                  ("decimals", VNumber decimals);
                  ("assetId", VString assetId)])).
Proof.
  intros H. destruct (find_is_fuel_some _ H) as (ch & d & i & ct & Hf).
  exists ch, d, i, ct. split; [ exact Hf | ].
  unfold assetData. rewrite Hf. reflexivity.
Qed.

Lemma assetData_error (a : Asset) (e : Error) :
  assetData a = inl e -> e = JsError "Asset for Fuel Network not found!".
Proof.
  unfold assetData. destruct (find is_fuel (networks a)); congruence.
Qed.

(** One asset without a Fuel variant makes the whole batch fail. *)
Lemma assetsData_fails (l : list Asset) :
  Exists (fun a => Forall (fun n => is_fuel n = false) (networks a)) l ->
  map_or_throw assetData l = inl (JsError "Asset for Fuel Network not found!").
Proof.
  induction l as [ | a l IH]; intros H; [ inversion H | ].
  simpl. destruct (assetData a) as [e | d] eqn:Ha.
  - apply assetData_error in Ha. congruence.
  - inversion H as [? ? Hbad | ? ? Hl]; subst.
    + rewrite (assetData_missing a Hbad) in Ha. discriminate.
    + rewrite (IH Hl). reflexivity.
Qed.

Lemma assetsData_succeeds (l : list Asset) :
  Forall (fun a => Exists (fun n => is_fuel n = true) (networks a)) l ->
  exists assetsData,
    map_or_throw assetData l = inr assetsData
    /\ Forall2 (fun a d => assetData a = inr d) l assetsData.
Proof.
  induction l as [ | a l IH]; intros H.
  - exists []. split; [ reflexivity | constructor ].
  - inversion H as [ | ? ? Ha Hl]; subst.
    destruct (IH Hl) as (ds & Hds & Hall).
    destruct (assetData_found a Ha) as (ch & d & i & ct & _ & Hd).
    eexists (_ :: ds). simpl. rewrite Hd, Hds.
    split; [ reflexivity | constructor; assumption ].
Qed.

(** C5. A batch with an asset that has no network of type ['fuel']
    makes [addAssets] reject with the validation error and post
    nothing; a batch in which every asset has one makes it post
    exactly one request, [addAssets], whose [assets] are the data of
    each asset in order: the asset with [imageUrl], [decimals] and
    [assetId] taken from its icon and its first Fuel network. *)
Theorem addAssets_validates_before_sending
  (c : Connector) (o : string) (call : nat) (assets_ : list Asset)
  (Hw : window c = Some o) :
  (Exists (fun a => Forall (fun n => is_fuel n = false) (networks a)) assets_ ->
     step (Call call (AddAssets assets_)) c
     = (c, [Settled call
              (RejectedWith (JsError "Asset for Fuel Network not found!"))]))
  /\ (Forall (fun a => Exists (fun n => is_fuel n = true) (networks a)) assets_ ->
       exists assetsData,
         Forall2 (fun a d => assetData a = inr d) assets_ assetsData
         /\ step (Call call (AddAssets assets_)) c
            = (with_pendingRequests
                 (mkPending (nextId c) None (Some call) settle
                    :: pendingRequests c)
                 (with_nextId (S (nextId c)) c),
               [PostMessage
                  (request_message c (nextId c) "addAssets"
                     (VObject [("assets", VArray assetsData)])) o]))
  /\ (forall a, Exists (fun n => is_fuel n = true) (networks a) ->
        exists chainId decimals assetId contractId,
          find is_fuel (networks a)
          = Some (NetworkFuel chainId decimals assetId contractId)
          /\ assetData a
             = inr (VObject
                      (Asset_fields a ++
                       [("imageUrl", VString (icon a));
                        ("decimals", VNumber decimals);
                        ("assetId", VString assetId)]))).
Proof.
  split; [ | split ].
  - intros Hbad. cbn [step body]. unfold addAssets.
    rewrite (assetsData_fails _ Hbad). reflexivity.
  - intros Hall. destruct (assetsData_succeeds _ Hall) as (ds & Hds & Hrel).
    exists ds. split; [ exact Hrel | ].
    cbn [step body]. unfold addAssets. rewrite Hds. cbn [of_result].
    unfold request_. apply (run_request (Some call) None _ _ _ _ _ Hw).
  - apply assetData_found.
Qed.

(** C10. [addAsset(a)] is [addAssets([a])]: the two calls leave the
    connector in the same state with the same effects, so whatever
    follows is the same too; the asset is validated the same way and,
    when it has a Fuel network, one [addAssets] request carries its
    data alone. *)
Theorem addAsset_is_addAssets_of_one
  (c : Connector) (call : nat) (asset : Asset) :
  step (Call call (AddAsset asset)) c = step (Call call (AddAssets [asset])) c
  /\ (forall ops,
        steps (Call call (AddAsset asset) :: ops) c
        = steps (Call call (AddAssets [asset]) :: ops) c)
  /\ (forall e, assetData asset = inl e ->
        step (Call call (AddAsset asset)) c
        = (c, [Settled call (RejectedWith e)]))
  /\ (forall o d, window c = Some o -> assetData asset = inr d ->
        snd (step (Call call (AddAsset asset)) c)
        = [PostMessage
             (request_message c (nextId c) "addAssets"
                (VObject [("assets", VArray [d])])) o]).
Proof.
  split; [ reflexivity | ]. split; [ reflexivity | ]. split.
  - intros e He. cbn [step body]. unfold addAsset, addAssets.
    cbn [map_or_throw]. rewrite He. reflexivity.
  - intros o d Hw Hd. cbn [step body]. unfold addAsset, addAssets.
    cbn [map_or_throw]. rewrite Hd. cbn [of_result]. unfold request_.
    rewrite (run_request (Some call) None _ _ _ _ _ Hw). reflexivity.
Qed.

(** C8. [addNetwork] builds the provider and fetches the chain before
    it calls the RPC client: when either fails the call rejects with
    that very error and posts nothing, while the chain is not there
    nothing is posted either, and the one request that is posted
    carries the provider's URL and the chain's name. *)
Theorem addNetwork_looks_up_the_chain_first
  (c : Connector) (call : nat) (networkUrl : string) :
  (forall e, Provider_new networkUrl = inl e ->
     step (Call call (AddNetwork networkUrl)) c
     = (c, [Settled call (RejectedWith e)]))
  /\ (forall provider_ e,
        Provider_new networkUrl = inr provider_ ->
        Provider_getChain provider_ = Settles (inl e) ->
        step (Call call (AddNetwork networkUrl)) c
        = (c, [Settled call (RejectedWith e)]))
  /\ (forall provider_,
        Provider_new networkUrl = inr provider_ ->
        Provider_getChain provider_ = Hangs ->
        step (Call call (AddNetwork networkUrl)) c = (c, []))
  /\ (forall provider_ chain o,
        Provider_new networkUrl = inr provider_ ->
        Provider_getChain provider_ = Settles (inr chain) ->
        window c = Some o ->
        step (Call call (AddNetwork networkUrl)) c
        = (with_pendingRequests
             (mkPending (nextId c) None (Some call) settle :: pendingRequests c)
             (with_nextId (S (nextId c)) c),
           [PostMessage
              (request_message c (nextId c) "addNetwork"
                 (VObject
                    [("network",
                      VObject [("url", VString (url provider_));
                               ("name", VString (chain_name chain))])])) o])).
Proof.
  repeat split.
  - intros e He. cbn [step body]. unfold addNetwork. rewrite He. reflexivity.
  - intros p e Hp He. cbn [step body]. unfold addNetwork.
    rewrite Hp. cbn [of_result]. rewrite He. reflexivity.
  - intros p Hp Hh. cbn [step body]. unfold addNetwork.
    rewrite Hp. cbn [of_result]. rewrite Hh. reflexivity.
  - intros p chain o Hp Hch Hw. cbn [step body]. unfold addNetwork.
    rewrite Hp. cbn [of_result]. rewrite Hch. cbn [await of_result].
    unfold request_. apply (run_request (Some call) None _ _ _ _ _ Hw).
Qed.

End Properties.

(** * The operations the claims leave out *)

Section Operations.
Context {constants : Constants} {sdk : FuelsSDK}.

Ltac settled :=
  first [ exact (ex_intro _ (Fulfilled _) eq_refl)
        | exact (ex_intro _ (RejectedWith _) eq_refl) ].

Ltac cases :=
  repeat match goal with
         | |- context [match ?x with _ => _ end] => destruct x; simpl
         end.

Ltac settle_cases :=
  repeat first
    [ settled
    | progress unfold of_result
    | match goal with
      | |- context [match ?x with _ => _ end] => destruct x; simpl
      end ].

Ltac one_request :=
  right; right; do 2 eexists; split; [ reflexivity | ].

Ltac plain_request :=
  one_request;
  split; [ intros s; exists s; reflexivity | split; reflexivity ].

(** The shape of every operation: it fails before asking, waits for a
    collaborator for ever, or asks the client once and settles with
    what follows from the settlement of that request. *)
Lemma body_shape (m : Method) :
  (exists e, body m = Throw e)
  \/ body m = Never
  \/ exists args k,
       body m = Request (rpc_timeout m) (rpc_method m) args k
       /\ (forall s, exists r, k s = settle r)
       /\ (forall e, k (RejectedWith e)
                     = match m with
                       | IsConnected => Ret (VBool false)
                       | _ => Throw e
                       end)
       /\ (passes_through m = true -> forall s, k s = settle s).
Proof.
  destruct m; try plain_request.
  - (* isConnected *)
    one_request. split; [ intros [v | e]; settled | ].
    split; [ reflexivity | discriminate ].
  - (* currentAccount *)
    one_request. split; [ | split; [ reflexivity | discriminate ] ].
    intros [v | e]; simpl; [ | settled ].
    destruct (truthy v); simpl; [ | settled ].
    destruct (Address_fromDynamicInput v); settled.
  - (* signMessage *)
    simpl. unfold signMessage.
    destruct (blank_string message); [ left; eexists; reflexivity | ].
    destruct (unsigned_object message); [ left; eexists; reflexivity | ].
    plain_request.
  - (* sendTransaction *)
    simpl. unfold sendTransaction, prepareTransactionRequest.
    destruct (truthy transaction); simpl; [ | left; eexists; reflexivity ].
    destruct (transactionRequestify transaction) as [e | tx]; simpl;
      [ left; eexists; reflexivity | ].
    assert (Hk : forall s : Settlement, exists r,
               (resp <- settle s ;;
                (let fallback :=
                   let id := optional_member resp "id" in
                   Ret (if truthy id then id else resp) in
                 if typeof_object resp then
                   of_result (in_operator "id" resp) (fun has_id =>
                     if has_id then
                       of_result (in_operator "providerCache" resp)
                         (fun has_cache =>
                            if has_cache
                            then of_result
                                   (deserializeTransactionResponseJson resp) Ret
                            else fallback)
                     else fallback)
                 else fallback)) = settle r).
    { intros [resp | e]; simpl; [ | settled ].
      destruct resp; simpl; try settled; settle_cases. }
    destruct params_ as [[[f | ] ? ? ? ?] | ]; simpl.
    + destruct (f tx) as [[e | tx'] | ]; simpl;
        [ left; eexists; reflexivity | | right; left; reflexivity ].
      one_request. split; [ exact Hk | split; [ reflexivity | discriminate ] ].
    + one_request. split; [ exact Hk | split; [ reflexivity | discriminate ] ].
    + one_request. split; [ exact Hk | split; [ reflexivity | discriminate ] ].
  - (* signTransaction *)
    simpl. unfold signTransaction, prepareTransactionRequest.
    destruct (truthy transaction); simpl; [ | left; eexists; reflexivity ].
    destruct (transactionRequestify transaction) as [e | tx]; simpl;
      [ left; eexists; reflexivity | ].
    assert (Hk : forall s : Settlement, exists r,
               (txRequestSerialized <- settle s ;;
                of_result (JSON_parse txRequestSerialized) (fun parsed =>
                  of_result (transactionRequestify parsed) Ret)) = settle r).
    { intros [v | e]; simpl; [ | settled ].
      destruct (JSON_parse v) as [e | parsed]; simpl; [ settled | ].
      destruct (transactionRequestify parsed); settled. }
    destruct params_ as [[[f | ] ? ? ? ?] | ]; simpl.
    + destruct (f tx) as [[e | tx'] | ]; simpl;
        [ left; eexists; reflexivity | | right; left; reflexivity ].
      one_request. split; [ exact Hk | split; [ reflexivity | discriminate ] ].
    + one_request. split; [ exact Hk | split; [ reflexivity | discriminate ] ].
    + one_request. split; [ exact Hk | split; [ reflexivity | discriminate ] ].
  - (* addAsset *)
    simpl. unfold addAsset, addAssets.
    destruct (map_or_throw assetData [asset]); simpl;
      [ left; eexists; reflexivity | plain_request ].
  - (* addAssets *)
    simpl. unfold addAssets.
    destruct (map_or_throw assetData assets_); simpl;
      [ left; eexists; reflexivity | plain_request ].
  - (* hasABI *)
    one_request. split; [ intros [v | e]; settled | ].
    split; [ reflexivity | discriminate ].
  - (* addNetwork *)
    simpl. unfold addNetwork.
    destruct (Provider_new networkUrl) as [e | p]; simpl;
      [ left; eexists; reflexivity | ].
    destruct (Provider_getChain p) as [[e | chain] | ]; simpl;
      [ left; eexists; reflexivity | plain_request | right; left; reflexivity ].
Qed.

Lemma run_settle (call : nat) (r : Settlement) (c : Connector) :
  run (Some call) (settle r) c = (c, [Settled call r]).
Proof. destruct r; reflexivity. Qed.

(** X1. On a page, a call of any operation does one of three things:
    it posts exactly one request, for the RPC method of the operation,
    under a fresh id, and whatever settles that request settles the
    call at once, with no second request; or it rejects before anything
    is sent and leaves the connector as it was; or it waits for a
    collaborator that never answers, with nothing sent.  No operation
    resolves without asking the agent, and [ping] alone arms a timer:
    800 ms. *)
Theorem every_operation_asks_at_most_once
  (c : Connector) (o : string) (call : nat) (m : Method)
  (Hw : window c = Some o) :
  (exists args k,
     step (Call call m) c
     = (with_pendingRequests
          (mkPending (nextId c)
             (option_map (Nat.add (clock c)) (rpc_timeout m)) (Some call) k
             :: pendingRequests c)
          (with_nextId (S (nextId c)) c),
        [PostMessage (request_message c (nextId c) (rpc_method m) args) o])
     /\ forall s c', exists r, run (Some call) (k s) c' = (c', [Settled call r]))
  \/ (exists e, step (Call call m) c = (c, [Settled call (RejectedWith e)]))
  \/ step (Call call m) c = (c, []).
Proof.
  change (step (Call call m) c) with (run (Some call) (body m) c).
  destruct (body_shape m) as [(e & ->) | [-> | (args & k & -> & Hk & _)]].
  - right. left. exists e. reflexivity.
  - right. right. reflexivity.
  - left. exists args, k. split; [ apply (run_request _ _ _ _ _ _ _ Hw) | ].
    intros s c'. destruct (Hk s) as (r & ->). exists r. apply run_settle.
Qed.

(** What the reply to the request of a call does, whatever the
    operation. *)
Lemma call_then_reply (c : Connector) (o : string) (call : nat) (m : Method)
  (b : Error + Value) :
  window c = Some o ->
  (exists msg, snd (step (Call call m) c) = [PostMessage msg o]) ->
  exists args k,
    body m = Request (rpc_timeout m) (rpc_method m) args k
    /\ (forall e, k (RejectedWith e)
                  = match m with
                    | IsConnected => Ret (VBool false)
                    | _ => Throw e
                    end)
    /\ (passes_through m = true -> forall s, k s = settle s)
    /\ snd (step (Deliver (agent_reply c o (nextId c) b))
              (fst (step (Call call m) c)))
       = snd (run (Some call) (k (settlement_of (mkResponse (nextId c) b)))
                (with_pendingRequests
                   (without_id (nextId c) (pendingRequests c))
                   (with_nextId (S (nextId c)) c))).
Proof.
  intros Hw (msg & Hposted).
  change (step (Call call m) c) with (run (Some call) (body m) c) in *.
  destruct (body_shape m) as [(e & He) | [He | (args & k & He & _ & Hrej & Hplain)]].
  - rewrite He in Hposted. discriminate Hposted.
  - rewrite He in Hposted. discriminate Hposted.
  - exists args, k. repeat split; try assumption.
    rewrite He. apply (request_then_reply call _ _ _ _ c o b Hw).
Qed.

(** X2. An error the agent reports for the request of a call rejects
    the call with that very error, for every operation but
    [isConnected], which resolves to [false]. *)
Theorem agent_error_reaches_the_caller
  (c : Connector) (o : string) (call : nat) (m : Method) (e : Error)
  (Hw : window c = Some o)
  (Hposted : exists msg, snd (step (Call call m) c) = [PostMessage msg o]) :
  snd (step (Deliver (agent_reply c o (nextId c) (inl e)))
         (fst (step (Call call m) c)))
  = [Settled call
       match m with
       | IsConnected => Fulfilled (VBool false)
       | _ => RejectedWith e
       end].
Proof.
  destruct (call_then_reply c o call m (inl e) Hw Hposted)
    as (args & k & _ & Hrej & _ & ->).
  change (settlement_of (mkResponse (nextId c) (inl e))) with (RejectedWith e).
  rewrite Hrej. destruct m; reflexivity.
Qed.

(** X3. The operations that do nothing to the reply ([ping], [connect],
    [disconnect], [accounts], [signMessage], [assets], [addAsset],
    [addAssets], [addABI], [getABI], [currentNetwork], [selectNetwork],
    [networks], [addNetwork], [version]) settle with the result of the
    agent as it is. *)
Theorem plain_operations_return_the_reply
  (c : Connector) (o : string) (call : nat) (m : Method) (b : Error + Value)
  (Hw : window c = Some o)
  (Hplain : passes_through m = true)
  (Hposted : exists msg, snd (step (Call call m) c) = [PostMessage msg o]) :
  snd (step (Deliver (agent_reply c o (nextId c) b))
         (fst (step (Call call m) c)))
  = [Settled call
       match b with
       | inr v => Fulfilled v
       | inl e => RejectedWith e
       end].
Proof.
  destruct (call_then_reply c o call m b Hw Hposted)
    as (args & k & _ & _ & Hk & ->).
  rewrite (Hk Hplain), run_settle. reflexivity.
Qed.

(** X4. [currentAccount] resolves to [null] when the agent's result is
    falsy (no account, an empty string) and the address is not looked
    at; otherwise to the address as [Address.fromDynamicInput] prints
    it, or it rejects with the error of that conversion. *)
Theorem currentAccount_is_an_address_or_null
  (c : Connector) (o : string) (call : nat) (account : Value)
  (Hw : window c = Some o) :
  snd (step (Deliver (agent_reply c o (nextId c) (inr account)))
         (fst (step (Call call CurrentAccount) c)))
  = [Settled call
       (if truthy account
        then match Address_fromDynamicInput account with
             | inr a => Fulfilled (VString a)
             | inl e => RejectedWith e
             end
        else Fulfilled VNull)].
Proof.
  change (step (Call call CurrentAccount) c) with
    (run (Some call)
       (Request None "currentAccount" (VObject [])
          (fun s =>
             account <- settle s ;;
             if negb (truthy account) then Ret VNull
             else of_result (Address_fromDynamicInput account)
                    (fun a => Ret (VString a)))) c).
  rewrite (request_then_reply call None _ _ _ c o _ Hw). cbn.
  destruct (truthy account); cbn; [ | reflexivity ].
  destruct (Address_fromDynamicInput account); reflexivity.
Qed.

(** X5. [hasABI] posts the request [getABI] posts and resolves to a
    boolean whatever the agent's result is: [true] exactly when that
    result is truthy.  An error of the agent rejects it. *)
Theorem hasABI_is_getABI_as_a_boolean
  (c : Connector) (o : string) (call : nat) (contractId : string)
  (b : Error + Value) (Hw : window c = Some o) :
  snd (step (Call call (HasABI contractId)) c)
  = snd (step (Call call (GetABI contractId)) c)
  /\ snd (step (Deliver (agent_reply c o (nextId c) b))
            (fst (step (Call call (GetABI contractId)) c)))
     = [Settled call match b with
                     | inr abi => Fulfilled abi
                     | inl e => RejectedWith e
                     end]
  /\ snd (step (Deliver (agent_reply c o (nextId c) b))
            (fst (step (Call call (HasABI contractId)) c)))
     = [Settled call match b with
                     | inr abi => Fulfilled (VBool (truthy abi))
                     | inl e => RejectedWith e
                     end].
Proof.
  change (step (Call call (GetABI contractId)) c) with
    (run (Some call)
       (Request None "getAbi" (VObject [("contractId", VString contractId)])
          settle) c).
  change (step (Call call (HasABI contractId)) c) with
    (run (Some call)
       (Request None "getAbi" (VObject [("contractId", VString contractId)])
          (fun s => abi <- settle s ;; Ret (VBool (truthy abi)))) c).
  rewrite !(run_request _ _ _ _ _ _ _ Hw).
  split; [ reflexivity | ].
  rewrite <- !(run_request _ _ _ _ _ _ _ Hw).
  rewrite !(request_then_reply call None _ _ _ c o _ Hw).
  destruct b; split; reflexivity.
Qed.

(** X6. [signTransaction] sends what [sendTransaction] sends but for the
    [returnTransactionResponse] flag, and never returns the agent's
    string as it is: the result goes through [JSON.parse] and
    [transactionRequestify], and an error of either rejects the call. *)
Theorem signTransaction_parses_the_reply
  (c : Connector) (o : string) (call : nat) (address : string)
  (transaction : Value) (params_ : option FuelConnectorSendTxParams)
  (p : Prepared) (serialized : Value)
  (Hw : window c = Some o)
  (Hp : forall k, prepareTransactionRequest transaction params_ k = k p) :
  (exists args,
     snd (step (Call call (SignTransaction address transaction params_)) c)
     = [PostMessage
          (request_message c (nextId c) "signTransaction" (VObject args)) o]
     /\ snd (step (Call call (SendTransaction address transaction params_)) c)
        = [PostMessage
             (request_message c (nextId c) "sendTransaction"
                (VObject (args ++ [("returnTransactionResponse", VBool true)])))
             o]
     /\ lookup_field "transaction" args
        = Some (VString (JSON_stringify (txRequest p))))
  /\ snd (step (Deliver (agent_reply c o (nextId c) (inr serialized)))
            (fst (step (Call call (SignTransaction address transaction params_))
                    c)))
     = [Settled call
          match JSON_parse serialized with
          | inl e => RejectedWith e
          | inr parsed =>
              match transactionRequestify parsed with
              | inl e => RejectedWith e
              | inr signed => Fulfilled signed
              end
          end].
Proof.
  change (step (Call call (SignTransaction address transaction params_)) c)
    with (run (Some call) (signTransaction address transaction params_) c).
  change (step (Call call (SendTransaction address transaction params_)) c)
    with (run (Some call) (sendTransaction address transaction params_) c).
  unfold signTransaction, sendTransaction. rewrite !Hp.
  change (bind (request_ None ?m ?a) ?f) with
    (Request None m a (fun s => bind (settle s) f)).
  split.
  - eexists. rewrite !(run_request _ _ _ _ _ _ _ Hw).
    split; [ reflexivity | ]. split; reflexivity.
  - rewrite (request_then_reply call None _ _ _ c o _ Hw). cbn.
    destruct (JSON_parse serialized) as [e | parsed]; cbn; [ reflexivity | ].
    destruct (transactionRequestify parsed); reflexivity.
Qed.

(** X7. [sendTransaction] and [signTransaction] prepare the transaction
    before they ask the agent.  A falsy transaction is refused with
    ["Transaction is required"]; an error of [transactionRequestify] or
    of the caller's [onBeforeSend] rejects the call; while
    [onBeforeSend] has not answered nothing is sent.  In all of these
    nothing is posted and the connector is as it was.  What is sent is
    the transaction [onBeforeSend] returned, when there is one, and the
    requestified transaction otherwise. *)
Theorem transaction_is_prepared_before_sending
  (c : Connector) (call : nat) (send : bool) (address : string)
  (transaction : Value) (params_ : option FuelConnectorSendTxParams) :
  let m := transaction_call send address transaction params_ in
  (truthy transaction = false ->
     step (Call call m) c
     = (c, [Settled call (RejectedWith (JsError "Transaction is required"))]))
  /\ (forall e,
        truthy transaction = true ->
        transactionRequestify transaction = inl e ->
        step (Call call m) c = (c, [Settled call (RejectedWith e)]))
  /\ (forall tx f e,
        truthy transaction = true ->
        transactionRequestify transaction = inr tx ->
        onBeforeSend_of params_ = Some f ->
        f tx = Settles (inl e) ->
        step (Call call m) c = (c, [Settled call (RejectedWith e)]))
  /\ (forall tx f,
        truthy transaction = true ->
        transactionRequestify transaction = inr tx ->
        onBeforeSend_of params_ = Some f ->
        f tx = Hangs ->
        step (Call call m) c = (c, []))
  /\ (forall tx sent o,
        truthy transaction = true ->
        transactionRequestify transaction = inr tx ->
        match onBeforeSend_of params_ with
        | Some f => f tx = Settles (inr sent)
        | None => sent = tx
        end ->
        window c = Some o ->
        exists others,
          snd (step (Call call m) c)
          = [PostMessage
               (request_message c (nextId c) (rpc_method m)
                  (VObject (("address", VString address)
                            :: ("transaction", VString (JSON_stringify sent))
                            :: others))) o]).
Proof.
  intros m.
  assert (Hm : step (Call call m) c
               = run (Some call)
                   (if send then sendTransaction address transaction params_
                    else signTransaction address transaction params_) c)
    by (unfold m, transaction_call; destruct send; reflexivity).
  rewrite Hm. clear Hm.
  unfold sendTransaction, signTransaction, prepareTransactionRequest.
  repeat split.
  - intros ->. destruct send; reflexivity.
  - intros e -> ->. destruct send; reflexivity.
  - intros tx f e -> -> Hf He.
    destruct params_ as [[g ? ? ? ?] | ]; simpl in Hf; [ | discriminate ].
    subst g. cbn. rewrite He. destruct send; reflexivity.
  - intros tx f -> -> Hf He.
    destruct params_ as [[g ? ? ? ?] | ]; simpl in Hf; [ | discriminate ].
    subst g. cbn. rewrite He. destruct send; reflexivity.
  - intros tx sent o -> -> Hsent Hw.
    assert (Hrun : forall args k,
               snd (run (Some call) (Request None (rpc_method m) args k) c)
               = [PostMessage (request_message c (nextId c) (rpc_method m) args) o])
      by (intros; rewrite (run_request _ _ _ _ _ _ _ Hw); reflexivity).
    unfold m, transaction_call in *.
    destruct params_ as [[[f | ] ? ? ? ?] | ]; simpl in Hsent; cbn.
    + rewrite Hsent. cbn. destruct send; eexists; apply Hrun.
    + subst sent. destruct send; eexists; apply Hrun.
    + subst sent. destruct send; eexists; apply Hrun.
Qed.

(** X8. The connector does not consume what it posts: [postMessage]
    goes to the page's own origin, so the listener sees every request
    again, and any connector on the page, this one included, refuses
    it and is left as it was. *)
Theorem own_requests_are_not_consumed
  (op : Op) (c c' : Connector) (msg : CommunicationMessage) (o : string)
  (Hposted : In (PostMessage msg o) (snd (step op c))) :
  acceptMessage c' (mkMessageEvent o (Channel msg)) = inr false
  /\ step (Deliver (mkMessageEvent o (Channel msg))) c' = (c', []).
Proof.
  destruct (step_identity op c) as (_ & Hs).
  rewrite Forall_forall in Hs. destruct (Hs _ Hposted) as (_ & _ & Ht & _).
  assert (Hno : acceptMessage c' (mkMessageEvent o (Channel msg)) = inr false).
  { destruct (acceptMessage c' (mkMessageEvent o (Channel msg)))
      as [e | [ | ]] eqn:Hacc; [ | | reflexivity ].
    - apply acceptMessage_throws in Hacc as (Hd & _). discriminate Hd.
    - apply acceptMessage_checks in Hacc as (msg' & Hd & _ & Hty & _).
      injection Hd as <-. contradiction. }
  split; [ exact Hno | ].
  simpl. unfold onMessage. rewrite Hno.
  destruct (setupListener c'); reflexivity.
Qed.

(** X9. Where there is no window (a server rendering the page), the
    constructor starts no probe and attaches no listener, and nothing
    ever leaves the connector: no message is posted, no event is
    dispatched, no subscriber is called and no request stays pending.
    All a sequence of calls, messages and timer expiries does is settle
    the calls. *)
Theorem without_a_window_nothing_leaves (n : option string) (ops : list Op) :
  snd (constructor n None) = []
  /\ pendingRequests (fst (steps ops (fst (constructor n None)))) = []
  /\ Forall (fun e => is_settled e = true)
       (snd (steps ops (fst (constructor n None)))).
Proof.
  split; [ reflexivity | ].
  assert (H : forall ops c,
             window c = None -> pendingRequests c = [] ->
             pendingRequests (fst (steps ops c)) = []
             /\ Forall (fun e => is_settled e = true) (snd (steps ops c))).
  { clear ops. induction ops as [ | op ops IH]; intros c Hw Hp; simpl.
    - split; [ exact Hp | constructor ].
    - assert (Hstep : window (fst (step op c)) = None
                      /\ pendingRequests (fst (step op c)) = []
                      /\ Forall (fun e => is_settled e = true) (snd (step op c))).
      { destruct op as [call m | message | ms | nm handler]; simpl.
        - destruct (body_shape m)
            as [(e & ->) | [-> | (args & k & -> & Hk & _)]]; simpl.
          + repeat split; auto.
          + repeat split; auto.
          + rewrite (client_request_no_window _ _ _ _ _ _ Hw).
            destruct (Hk (RejectedWith (ReferenceError "window is not defined")))
              as (r & ->).
            rewrite run_settle. simpl. repeat split; auto.
        - unfold setupListener. rewrite Hw. simpl. repeat split; auto.
        - unfold fire_timers. simpl. rewrite Hp. simpl. repeat split; auto.
        - repeat split; auto. }
      destruct (step op c) as [c1 es1]. simpl in Hstep.
      destruct Hstep as (Hw1 & Hp1 & Hs1).
      specialize (IH c1 Hw1 Hp1). destruct (steps ops c1) as [c2 es2].
      simpl in *. destruct IH as (Hp2 & Hs2).
      split; [ exact Hp2 | apply Forall_app; split; assumption ]. }
  apply H; reflexivity.
Qed.

(** ** Settlements are not repeated *)

Lemma count_app {A : Type} (f : A -> bool) (l l' : list A) :
  count f (l ++ l') = count f l + count f l'.
Proof. unfold count. rewrite filter_app, length_app. reflexivity. Qed.

Lemma count_cons {A : Type} (f : A -> bool) (a : A) (l : list A) :
  count f (a :: l) = (if f a then 1 else 0) + count f l.
Proof. unfold count. simpl. destruct (f a); reflexivity. Qed.

Lemma count_rev {A : Type} (f : A -> bool) (l : list A) :
  count f (rev l) = count f l.
Proof.
  induction l as [ | a l IH]; [ reflexivity | ].
  simpl. rewrite count_app, IH. unfold count. simpl.
  destruct (f a); simpl; lia.
Qed.

Lemma count_split {A : Type} (f g : A -> bool) (l : list A) :
  count f (filter g l) + count f (filter (fun a => negb (g a)) l) = count f l.
Proof.
  unfold count. induction l as [ | a l IH]; [ reflexivity | ].
  simpl. destruct (g a); simpl; destruct (f a); simpl; lia.
Qed.

Lemma count_without {A : Type} (f g : A -> bool) (l : list A) (a : A) :
  In a l -> g a = false ->
  count f (filter g l) + (if f a then 1 else 0) <= count f l.
Proof.
  unfold count. induction l as [ | b l IH]; intros Hin Hg; [ contradiction | ].
  destruct Hin as [-> | Hin].
  - simpl. rewrite Hg.
    pose proof (count_split f g l) as Hs. unfold count in Hs.
    destruct (f a); simpl; lia.
  - specialize (IH Hin Hg). simpl.
    destruct (g b); simpl; destruct (f b); simpl; lia.
Qed.

Ltac nothing_settled :=
  change (count (is_settlement_of _) []) with 0; lia.

Lemma count_invocations (call : nat) (args : list Value) (hs : list nat) :
  count (is_settlement_of call) (map (fun h => Invoke h args) hs) = 0.
Proof. unfold count. induction hs; simpl; auto. Qed.

(** A terminal program leaves the connector as it is and settles its
    caller at most once, and nobody else. *)
Lemma run_terminal (call : nat) (p : Prog) :
  terminal p ->
  forall caller c,
    fst (run caller p c) = c
    /\ count (is_settlement_of call) (snd (run caller p c)) <= owes call caller.
Proof.
  induction 1 as [v | e | | ty next _ IH | n args next _ IH];
    intros caller c; simpl.
  - split; [ reflexivity | ].
    destruct caller as [call' | ]; unfold count; simpl; [ | lia ].
    destruct (call' =? call)%nat; simpl; lia.
  - split; [ reflexivity | ].
    destruct caller as [call' | ]; unfold count; simpl; [ | lia ].
    destruct (call' =? call)%nat; simpl; lia.
  - split; [ reflexivity | unfold count; simpl; lia ].
  - specialize (IH caller c). destruct (run caller next c) as [c1 es].
    simpl in *. exact IH.
  - specialize (IH caller c). destruct (run caller next c) as [c1 es].
    simpl in *. split; [ apply IH | ].
    rewrite count_app, count_invocations. apply IH.
Qed.

(** A tame program keeps the table tame; what it settles and what it
    leaves waiting for a call is at most what was waiting, and one more
    for its own caller. *)
Lemma run_tame (call : nat) (p : Prog) :
  tame p ->
  forall caller c,
    settles_once c ->
    settles_once (fst (run caller p c))
    /\ count (is_settlement_of call) (snd (run caller p c))
       + count (waits_for call) (pendingRequests (fst (run caller p c)))
       <= count (waits_for call) (pendingRequests c) + owes call caller.
Proof.
  induction 1 as [v | e | | timeout method args k Hk | ty next _ IH
                 | n args next _ IH | q next _ IHq _ IH | k _ IH];
    intros caller c Hc.
  - destruct (run_terminal call (Ret v) (terminal_Ret v) caller c) as (-> & Hn).
    split; [ exact Hc | lia ].
  - destruct (run_terminal call (Throw e) (terminal_Throw e) caller c)
      as (-> & Hn).
    split; [ exact Hc | lia ].
  - simpl. split; [ exact Hc | nothing_settled ].
  - simpl. destruct (window c) as [o | ] eqn:Hw.
    + rewrite (client_request_window _ _ _ _ _ _ _ Hw). simpl.
      split; [ constructor; [ exact Hk | exact Hc ] | ].
      unfold count, waits_for, owes. simpl.
      destruct caller as [call' | ]; simpl; [ | lia ].
      destruct (call' =? call)%nat; simpl; lia.
    + rewrite (client_request_no_window _ _ _ _ _ _ Hw).
      destruct (run_terminal call _ (Hk (RejectedWith
                  (ReferenceError "window is not defined"))) caller
                  (with_nextId (S (nextId c)) c)) as (-> & Hn).
      split; [ exact Hc | ]. simpl. lia.
  - simpl. specialize (IH caller c Hc).
    destruct (run caller next c) as [c1 es]. simpl in *. exact IH.
  - simpl. specialize (IH caller c Hc).
    destruct (run caller next c) as [c1 es]. simpl in *.
    split; [ apply IH | ].
    rewrite count_app, count_invocations. apply IH.
  - simpl. specialize (IHq None c Hc).
    destruct (run None q c) as [c1 es1]. simpl in IHq.
    destruct IHq as (Hc1 & Hn1). specialize (IH caller c1 Hc1).
    destruct (run caller next c1) as [c2 es2]. simpl in *.
    split; [ apply IH | ]. rewrite count_app. lia.
  - simpl. apply IH. exact Hc.
Qed.

Lemma body_tame (m : Method) : tame (body m).
Proof.
  destruct (body_shape m) as [(e & ->) | [-> | (args & k & -> & Hk & _)]];
    constructor.
  intros s. destruct (Hk s) as ([v | e] & ->); constructor.
Qed.

Lemma setupConnector_tame : tame setupConnector.
Proof.
  constructor. intros [ | ]; repeat constructor.
  intros [v | e]; repeat constructor.
Qed.

Lemma onEvent_tame (events : list EventData) : tame (onEvent events).
Proof.
  induction events as [ | e rest IH]; simpl; [ constructor | ].
  destruct (event e =? "start"); constructor;
    auto using setupConnector_tame.
Qed.

Lemma client_receive_once (call : nat) (r : JSONRPCResponse) (c : Connector) :
  settles_once c ->
  settles_once (fst (client_receive r c))
  /\ count (is_settlement_of call) (snd (client_receive r c))
     + count (waits_for call) (pendingRequests (fst (client_receive r c)))
     <= count (waits_for call) (pendingRequests c).
Proof.
  intros Hc. unfold client_receive.
  destruct (find _ (pendingRequests c)) as [p | ] eqn:Hfind.
  - apply find_some in Hfind as (Hin & Hid).
    assert (Hp : forall s, terminal (pending_k p s))
      by (unfold settles_once in Hc; rewrite Forall_forall in Hc; auto).
    destruct (run_terminal call _ (Hp (settlement_of r)) (pending_caller p)
                (with_pendingRequests
                   (without_id (response_id r) (pendingRequests c)) c))
      as (-> & Hn).
    split.
    + unfold settles_once, without_id in *. simpl.
      rewrite Forall_forall in *. intros x Hx.
      apply filter_In in Hx as (Hx & _). auto.
    + simpl. unfold without_id.
      pose proof (count_without (waits_for call)
                    (fun p => negb (pending_id p =? response_id r)%nat)
                    (pendingRequests c) p Hin) as Hw.
      cbv beta in Hw. rewrite Hid in Hw. specialize (Hw eq_refl).
      unfold owes in Hn. unfold waits_for in Hw at 2.
      unfold without_id in Hn.
      destruct (pending_caller p) as [call' | ];
        [ destruct (call' =? call)%nat | ]; lia.
  - simpl. split; [ exact Hc | nothing_settled ].
Qed.

Lemma fire_due (call : nat) (due : list Pending) :
  Forall (fun p => forall s, terminal (pending_k p s)) due ->
  forall (c : Connector) (es : list Effect),
    let r := fold_left
      (fun (acc : Connector * list Effect) p =>
         let (c1, es) := acc in
         let (c2, es') :=
           run (pending_caller p) (pending_k p (RejectedWith RequestTimeout)) c1 in
         (c2, es ++ es'))
      due (c, es) in
    fst r = c
    /\ count (is_settlement_of call) (snd r)
       <= count (is_settlement_of call) es + count (waits_for call) due.
Proof.
  induction 1 as [ | p due Hp _ IH]; intros c es; simpl.
  - split; [ reflexivity | lia ].
  - destruct (run_terminal call _ (Hp (RejectedWith RequestTimeout))
                (pending_caller p) c) as (Hfst & Hn).
    destruct (run (pending_caller p) _ c) as [c2 es2]. simpl in Hfst, Hn.
    subst c2. specialize (IH c (es ++ es2)). simpl in IH.
    destruct IH as (-> & IH). split; [ reflexivity | ].
    rewrite count_app in IH. rewrite count_cons.
    unfold owes in Hn. unfold waits_for at 1.
    destruct (pending_caller p) as [call' | ];
      [ destruct (call' =? call)%nat | ]; lia.
Qed.

Lemma fire_timers_once (call : nat) (c : Connector) :
  settles_once c ->
  settles_once (fst (fire_timers c))
  /\ count (is_settlement_of call) (snd (fire_timers c))
     + count (waits_for call) (pendingRequests (fst (fire_timers c)))
     <= count (waits_for call) (pendingRequests c).
Proof.
  intros Hc. unfold fire_timers.
  assert (Hdue : Forall (fun p => forall s, terminal (pending_k p s))
                   (rev (filter (expired (clock c)) (pendingRequests c)))).
  { apply Forall_rev. unfold settles_once in Hc.
    rewrite Forall_forall in *. intros x Hx.
    apply filter_In in Hx as (Hx & _). auto. }
  destruct (fire_due call _ Hdue
              (with_pendingRequests
                 (filter (fun p => negb (expired (clock c) p)) (pendingRequests c))
                 c) []) as (Hfst & Hn).
  cbv zeta in Hfst, Hn. rewrite Hfst. simpl. split.
  - unfold settles_once in *. simpl. rewrite Forall_forall in *.
    intros x Hx. apply filter_In in Hx as (Hx & _). auto.
  - rewrite count_rev in Hn.
    pose proof (count_split (waits_for call) (expired (clock c))
                  (pendingRequests c)) as Hs.
    change (count (is_settlement_of call) []) with 0 in Hn. lia.
Qed.

Lemma step_once (call : nat) (op : Op) (c : Connector) :
  settles_once c ->
  settles_once (fst (step op c))
  /\ count (is_settlement_of call) (snd (step op c))
     + count (waits_for call) (pendingRequests (fst (step op c)))
     <= count (waits_for call) (pendingRequests c) + count (is_call_of call) [op].
Proof.
  intros Hc.
  assert (Hidle : settles_once c
                  /\ count (is_settlement_of call) []
                     + count (waits_for call) (pendingRequests c)
                     <= count (waits_for call) (pendingRequests c)
                        + count (is_call_of call) [op])
    by (split; [ exact Hc | nothing_settled ]).
  destruct op as [call' m | message | ms | n handler]; simpl.
  - pose proof (run_tame call (body m) (body_tame m) (Some call') c Hc) as H.
    rewrite count_cons. change (count (is_call_of call) []) with 0.
    unfold owes in H. simpl is_call_of.
    destruct (call' =? call)%nat;
      (split; [ apply H | destruct H as (_ & H); lia ]).
  - destruct (setupListener c); [ | exact Hidle ].
    unfold onMessage.
    destruct (acceptMessage c message) as [e | [ | ]]; simpl;
      try exact Hidle.
    destruct (data message) as [ | p | t n | msg]; try exact Hidle.
    unfold onCommunicationMessage, onResponse.
    destruct (payload msg) as [r | r | events | kind];
      try exact Hidle.
    + pose proof (client_receive_once call r c Hc) as H.
      split; [ apply H | ]. destruct H as (_ & H). lia.
    + pose proof (run_tame call _ (onEvent_tame events) None c Hc) as H.
      split; [ apply H | ]. destruct H as (_ & H). simpl in H. lia.
  - pose proof (fire_timers_once call (with_clock (clock c + ms) c) Hc) as H.
    split; [ apply H | ]. destruct H as (_ & H). simpl in H. lia.
  - exact Hidle.
Qed.

Lemma steps_once (call : nat) (ops : list Op) :
  forall c : Connector,
    settles_once c ->
    count (is_settlement_of call) (snd (steps ops c))
    + count (waits_for call) (pendingRequests (fst (steps ops c)))
    <= count (waits_for call) (pendingRequests c) + count (is_call_of call) ops.
Proof.
  induction ops as [ | op ops IH]; intros c Hc; simpl.
  - change (count (is_settlement_of call) []) with 0.
    change (count (is_call_of call) []) with 0. lia.
  - destruct (step_once call op c Hc) as (Hc1 & Hn1).
    destruct (step op c) as [c1 es1]. simpl in *.
    specialize (IH c1 Hc1). destruct (steps ops c1) as [c2 es2]. simpl in *.
    rewrite count_app.
    change (op :: ops) with ([op] ++ ops). rewrite count_app. lia.
Qed.

(** X10. Whatever the page calls and whatever arrives (replies sent
    twice, replies for requests that have timed out, replies nobody
    asked for, notifications), a call settles at most once: the
    settlements reported for a call number are never more than the
    calls made under that number, so a call that was not made is never
    settled. *)
Theorem a_call_settles_at_most_once
  (n w : option string) (ops : list Op) (call : nat) :
  count (is_settlement_of call) (snd (constructor n w))
  + count (is_settlement_of call) (snd (steps ops (fst (constructor n w))))
  <= count (is_call_of call) ops.
Proof.
  set (this := mkConnector (match n with Some s => s | None => "Fuel Wallet" end)
                 w 0 0 [] []).
  assert (Hthis : settles_once this) by constructor.
  assert (Hnew : settles_once (fst (constructor n w))
                 /\ count (is_settlement_of call) (snd (constructor n w))
                    + count (waits_for call)
                        (pendingRequests (fst (constructor n w)))
                    <= 0 + 0).
  { apply (run_tame call (Spawn setupConnector (Ret VUndefined))
             (tame_Spawn _ _ setupConnector_tame (tame_Ret _)) None this Hthis). }
  destruct Hnew as (Hc & Hn).
  pose proof (steps_once call ops (fst (constructor n w)) Hc) as H.
  lia.
Qed.

Lemma steps_settles_once (ops : list Op) :
  forall c : Connector, settles_once c -> settles_once (fst (steps ops c)).
Proof.
  induction ops as [ | op ops IH]; intros c Hc; simpl; [ exact Hc | ].
  destruct (step_once 0 op c Hc) as (Hc1 & _).
  destruct (step op c) as [c1 es1]. simpl in *.
  specialize (IH c1 Hc1). destruct (steps ops c1) as [c2 es2]. exact IH.
Qed.

Lemma constructor_settles_once (n w : option string) :
  settles_once (fst (constructor n w)).
Proof.
  apply (run_tame 0 (Spawn setupConnector (Ret VUndefined))
           (tame_Spawn _ _ setupConnector_tame (tame_Ret _)) None).
  constructor.
Qed.

Lemma find_without_id (id : nat) (l : list Pending) :
  find (fun p => (pending_id p =? id)%nat) (without_id id l) = None.
Proof.
  unfold without_id. induction l as [ | p l IH]; [ reflexivity | ].
  simpl. destruct (pending_id p =? id)%nat eqn:Hid; simpl; [ exact IH | ].
  rewrite Hid. exact IH.
Qed.

(** X11. A response is consumed once: in any state the connector can
    reach, delivering a response message a second time does nothing,
    whether the first delivery settled a call, was refused, or matched
    no request. *)
Theorem a_response_is_consumed_once
  (n w : option string) (ops : list Op)
  (origin_ target_ : string) (name_ : option string) (r : JSONRPCResponse) :
  let c := fst (steps ops (fst (constructor n w))) in
  let m := mkMessageEvent origin_
             (Channel (mkMessage target_ name_ (ResponsePayload r))) in
  step (Deliver m) (fst (step (Deliver m) c)) = (fst (step (Deliver m) c), []).
Proof.
  intros c m.
  assert (Hc : settles_once c)
    by apply steps_settles_once, constructor_settles_once.
  assert (Hstep : forall c1,
             step (Deliver m) c1
             = if setupListener c1
                  && match acceptMessage c1 m with
                     | inr accepted => accepted
                     | inl _ => false
                     end
               then client_receive r c1 else (c1, [])).
  { intros c1.
    change (step (Deliver m) c1) with
      (if setupListener c1 then onMessage m c1 else (c1, [])).
    unfold onMessage. destruct (setupListener c1); [ | reflexivity ].
    destruct (acceptMessage c1 m) as [e | [ | ]] eqn:Hacc; try reflexivity.
    apply acceptMessage_throws in Hacc as (Hd & _). discriminate Hd. }
  assert (Hagain : forall c1,
             find (fun p => (pending_id p =? response_id r)%nat)
               (pendingRequests c1) = None ->
             step (Deliver m) c1 = (c1, [])).
  { intros c1 Hfind. rewrite Hstep. unfold client_receive. rewrite Hfind.
    destruct (_ && _); reflexivity. }
  rewrite (Hstep c).
  destruct (setupListener c
            && match acceptMessage c m with
               | inr accepted => accepted
               | inl _ => false
               end) eqn:Hacc.
  - unfold client_receive.
    destruct (find _ (pendingRequests c)) as [p | ] eqn:Hfind.
    + assert (Hp : forall s, terminal (pending_k p s)).
      { apply find_some in Hfind as (Hin & _).
        unfold settles_once in Hc. rewrite Forall_forall in Hc. auto. }
      destruct (run_terminal 0 _ (Hp (settlement_of r)) (pending_caller p)
                  (with_pendingRequests
                     (without_id (response_id r) (pendingRequests c)) c))
        as (-> & _).
      apply Hagain. apply find_without_id.
    + apply Hagain. exact Hfind.
  - simpl fst. rewrite (Hstep c), Hacc. reflexivity.
Qed.

Lemma id_is_no_index (len : nat) :
  ("id" =? "length") || indexed_name "id" len = false.
Proof.
  unfold indexed_name. simpl. induction (seq 0 len) as [ | i l IH];
    [ reflexivity | ].
  simpl. rewrite IH, orb_false_r. unfold index_name.
  destruct (Nat.to_uint i); reflexivity.
Qed.

(** X12. The results [sendTransaction] does not expect: [null] rejects
    the call with a TypeError (it is an object to [typeof], and [in]
    refuses it); a boolean, a number and an array are returned as they
    are; an object without [id] is returned whole, [providerCache] or
    not, and is not deserialized. *)
Theorem sendTransaction_on_other_results
  (c : Connector) (o : string) (call : nat) (address : string)
  (transaction : Value) (params_ : option FuelConnectorSendTxParams)
  (p : Prepared)
  (Hw : window c = Some o)
  (Hp : forall k, prepareTransactionRequest transaction params_ k = k p) :
  let sent := step (Call call (SendTransaction address transaction params_)) c in
  let answer resp :=
    snd (step (Deliver (agent_reply c o (nextId c) (inr resp))) (fst sent)) in
  (exists message, answer VNull = [Settled call (RejectedWith (TypeError message))])
  /\ (forall b, answer (VBool b) = [Settled call (Fulfilled (VBool b))])
  /\ (forall z, answer (VNumber z) = [Settled call (Fulfilled (VNumber z))])
  /\ (forall items,
        answer (VArray items) = [Settled call (Fulfilled (VArray items))])
  /\ (forall fields,
        lookup_field "id" fields = None ->
        answer (VObject fields) = [Settled call (Fulfilled (VObject fields))]).
Proof.
  intros sent answer. unfold answer, sent. clear sent answer.
  change (step (Call call (SendTransaction address transaction params_)) c)
    with (run (Some call) (sendTransaction address transaction params_) c).
  unfold sendTransaction. rewrite Hp.
  change (bind (request_ None ?m ?a) ?f) with
    (Request None m a (fun s => bind (settle s) f)).
  split; [ | split; [ | split; [ | split ] ] ].
  - eexists. rewrite (request_then_reply call None _ _ _ c o _ Hw).
    reflexivity.
  - intros b. rewrite (request_then_reply call None _ _ _ c o _ Hw).
    reflexivity.
  - intros z. rewrite (request_then_reply call None _ _ _ c o _ Hw).
    reflexivity.
  - intros items. rewrite (request_then_reply call None _ _ _ c o _ Hw).
    cbn -[indexed_name String.eqb]. rewrite id_is_no_index. reflexivity.
  - intros fields Hid. rewrite (request_then_reply call None _ _ _ c o _ Hw).
    cbn. rewrite Hid. reflexivity.
Qed.

Lemma onEvent_requests (o : string) (events : list EventData) :
  forall c : Connector,
    window c = Some o ->
    Forall (fun e => is_settled e = false) (snd (run None (onEvent events) c))
    /\ exists probes,
         pendingRequests (fst (run None (onEvent events) c))
         = probes ++ pendingRequests c
         /\ List.length probes = count is_start events
         /\ Forall (fun p => pending_caller p = None
                             /\ pending_deadline p = Some (clock c + 800))
              probes.
Proof.
  induction events as [ | e rest IH]; intros c Hw.
  - simpl. split; [ constructor | ]. exists []. repeat split. constructor.
  - rewrite count_cons. simpl onEvent. fold (is_start e).
    destruct (is_start e) eqn:He.
    + pose proof (setupConnector_runs c) as Hsetup. rewrite Hw in Hsetup.
      destruct Hsetup as (k & Hrun & _).
      change (run None (Spawn setupConnector (onEvent rest)) c) with
        (let (c1, es1) := run None setupConnector c in
         let (c2, es2) := run None (onEvent rest) c1 in (c2, es1 ++ es2)).
      rewrite Hrun.
      match goal with
      | |- context [run None (onEvent rest) ?c1] =>
          specialize (IH c1 Hw) as (Hs & probes & Hp & Hlen & Hnone);
          destruct (run None (onEvent rest) c1) as [c2 es2]
      end.
      simpl in *. split; [ constructor; [ reflexivity | exact Hs ] | ].
      eexists (probes ++ [_]). rewrite <- app_assoc. split; [ exact Hp | ].
      rewrite length_app. simpl. split; [ lia | ].
      apply Forall_app. split; [ exact Hnone | repeat constructor ].
    + change (run None (Emit (event e) (params e) (onEvent rest)) c) with
        (let (c1, es) := run None (onEvent rest) c in
         (c1, map (fun h => Invoke h (params e)) (handlers_of (event e) c) ++ es)).
      specialize (IH c Hw) as (Hs & probes & Hp & Hlen & Hnone).
      destruct (run None (onEvent rest) c) as [c1 es1]. simpl in *.
      split.
      * apply Forall_app. split; [ | exact Hs ].
        apply Forall_forall. intros x Hx. apply in_map_iff in Hx.
        destruct Hx as (h & <- & _). reflexivity.
      * exists probes. auto.
Qed.

(** X13. An event notification leaves the requests in flight alone: it
    settles no call and removes no pending request.  All it adds to the
    table is one probe, with its timer of 800 ms and no caller, per
    ["start"] tuple. *)
Theorem notifications_leave_requests_alone
  (c : Connector) (o : string) (events : list EventData)
  (Hw : window c = Some o) :
  let r := step (Deliver (agent_events c o events)) c in
  Forall (fun e => is_settled e = false) (snd r)
  /\ exists probes,
       pendingRequests (fst r) = probes ++ pendingRequests c
       /\ List.length probes = count is_start events
       /\ Forall (fun p => pending_caller p = None
                           /\ pending_deadline p = Some (clock c + 800))
            probes.
Proof.
  intros r. unfold r. rewrite (deliver_events c o events Hw).
  apply (onEvent_requests o events c Hw).
Qed.

End Operations.

(** * The theorems at work on a page *)

#[local] Existing Instance page_constants.
#[local] Existing Instance sample_sdk.

(** The reply to the first probe is handed over and announces the
    connector; the same reply from another origin, a request, a message
    for another connector, one for the content script, a string, an
    object of another protocol and a [null] from another origin are
    dropped; a [null] posted on the page itself makes the listener
    throw. *)
Lemma onMessage_hands_over_iff_accepted_on_page :
  snd (step (Deliver (agent_reply page_connector page_origin 0 (inr (VBool true))))
         page_connector)
  = [DispatchEvent "FuelConnector"]
  /\ step (Deliver from_another_origin) page_connector = (page_connector, [])
  /\ step (Deliver own_request) page_connector = (page_connector, [])
  /\ step (Deliver for_another_connector) page_connector = (page_connector, [])
  /\ step (Deliver for_the_content_script) page_connector = (page_connector, [])
  /\ step (Deliver text_from_the_page) page_connector = (page_connector, [])
  /\ step (Deliver object_of_another_protocol) page_connector
     = (page_connector, [])
  /\ step (Deliver null_from_elsewhere) page_connector = (page_connector, [])
  /\ step (Deliver null_from_the_page) page_connector
     = (page_connector,
        [Uncaught (TypeError "Cannot read properties of null or undefined")]).
Proof.
  pose proof (fun m =>
                proj1 (proj2 (proj2 (onMessage_hands_over_iff_accepted
                                       page_connector m)))) as Hrefused.
  pose proof (fun m =>
                proj2 (proj2 (proj2 (proj2 (onMessage_hands_over_iff_accepted
                                              page_connector m))))) as Hthrown.
  split; [ reflexivity | ].
  repeat (split; [ apply (Hrefused _); reflexivity | ]).
  apply (Hthrown _). reflexivity.
Defined.

(** C3 fails on an object whose [id] is the empty string: the call
    resolves to the object, not to the identifier. *)
Lemma sendTransaction_returns_object_of_empty_id :
  snd (step (Deliver (agent_reply page_connector page_origin 1
                        (inr (VObject [("id", VString "")]))))
         (fst (step (Call 1 (SendTransaction "0xabc" transfer None))
                 page_connector)))
  = [Settled 1 (Fulfilled (VObject [("id", VString "")]))]
  /\ optional_member (VObject [("id", VString "")]) "id" = VString ""
  /\ VObject [("id", VString "")] <> VString "".
Proof. repeat split. discriminate. Qed.

Lemma sendTransaction_result_by_shape_on_page :
  window page_connector = Some page_origin
  /\ (forall k, prepareTransactionRequest transfer None k = k prepared_transfer)
  /\ snd (step (Deliver (agent_reply page_connector page_origin 1
                           (inr (VObject [("id", VString "0x5e");
                                          ("providerCache", VObject [])]))))
            (fst (step (Call 1 (SendTransaction "0xabc" transfer None))
                    page_connector)))
     = [Settled 1
          (Fulfilled
             (VObject [("TransactionResponse",
                        VObject [("id", VString "0x5e");
                                 ("providerCache", VObject [])])]))]
  /\ snd (step (Deliver (agent_reply page_connector page_origin 1
                           (inr (VObject [("id", VString "0x5e")]))))
            (fst (step (Call 1 (SendTransaction "0xabc" transfer None))
                    page_connector)))
     = [Settled 1 (Fulfilled (VString "0x5e"))].
Proof.
  assert (Hp : forall k,
             prepareTransactionRequest transfer None k = k prepared_transfer)
    by reflexivity.
  split; [ reflexivity | ]. split; [ exact Hp | ].
  destruct (sendTransaction_result_by_shape page_connector page_origin 1
              "0xabc" transfer None prepared_transfer eq_refl Hp)
    as (_ & Hboth & _ & Hid).
  split.
  - exact (Hboth [("id", VString "0x5e"); ("providerCache", VObject [])]
             (VString "0x5e") (VObject []) eq_refl eq_refl).
  - exact (Hid [("id", VString "0x5e")] (VString "0x5e") eq_refl eq_refl).
Defined.

(** A notification with a ["start"] tuple in the middle, on a connector
    that has a subscriber for ["start"]: the subscriber 7 is never
    called, the subscribers of ["accounts"] are called for the first and
    the last tuple, nobody listens to ["currentAccount"], and one ping
    is posted. *)
Lemma onEvent_keeps_start_from_subscribers_on_page :
  window subscribed_connector = Some page_origin
  /\ filter is_invocation
       (snd (step (Deliver (agent_events subscribed_connector page_origin
                              notification))
               subscribed_connector))
     = [Invoke 8 [VArray [VString "0x01"]]; Invoke 9 [VArray [VString "0x01"]];
        Invoke 8 [VArray []]; Invoke 9 [VArray []]]
  /\ filter is_posted
       (snd (step (Deliver (agent_events subscribed_connector page_origin
                              notification))
               subscribed_connector))
     = [PostMessage (request_message subscribed_connector 1 "ping" (VObject []))
          page_origin].
Proof.
  split; [ reflexivity | ].
  destruct (onEvent_keeps_start_from_subscribers subscribed_connector
              page_origin notification eq_refl) as (Hi & Hp & _).
  split; [ exact Hi | exact Hp ].
Defined.

(** A batch with an asset that lives on Ethereum only is refused; the
    asset that has a Fuel network goes out alone in one request. *)
Lemma addAssets_validates_before_sending_on_page :
  window page_connector = Some page_origin
  /\ Exists (fun a => Forall (fun n => is_fuel n = false) (networks a))
       [usdc; wrapped_only_on_ethereum]
  /\ step (Call 1 (AddAssets [usdc; wrapped_only_on_ethereum])) page_connector
     = (page_connector,
        [Settled 1 (RejectedWith (JsError "Asset for Fuel Network not found!"))])
  /\ Forall (fun a => Exists (fun n => is_fuel n = true) (networks a)) [usdc]
  /\ exists assetsData,
       Forall2 (fun a d => assetData a = inr d) [usdc] assetsData
       /\ step (Call 1 (AddAssets [usdc])) page_connector
          = (with_pendingRequests
               (mkPending 1 None (Some 1) settle :: pendingRequests page_connector)
               (with_nextId 2 page_connector),
             [PostMessage
                (request_message page_connector 1 "addAssets"
                   (VObject [("assets", VArray assetsData)])) page_origin]).
Proof.
  assert (Hbad : Exists (fun a => Forall (fun n => is_fuel n = false) (networks a))
                   [usdc; wrapped_only_on_ethereum]).
  { apply Exists_cons_tl, Exists_cons_hd. repeat constructor. }
  assert (Hgood : Forall (fun a => Exists (fun n => is_fuel n = true) (networks a))
                    [usdc]).
  { constructor; [ | constructor ].
    apply Exists_cons_tl, Exists_cons_hd. reflexivity. }
  split; [ reflexivity | ]. split; [ exact Hbad | ].
  split.
  - exact (proj1 (addAssets_validates_before_sending page_connector page_origin
                    1 [usdc; wrapped_only_on_ethereum] eq_refl) Hbad).
  - split; [ exact Hgood | ].
    exact (proj1 (proj2 (addAssets_validates_before_sending page_connector
                           page_origin 1 [usdc] eq_refl)) Hgood).
Defined.

(** C6 fails on an object that has [personalSign], the empty string:
    the call rejects and nothing is sent. *)
Lemma signMessage_rejects_empty_personalSign :
  lookup_field "personalSign" [("personalSign", VString "")] = Some (VString "")
  /\ step (Call 1 (SignMessage "0xabc" (VObject [("personalSign", VString "")])))
       page_connector
     = (page_connector,
        [Settled 1 (RejectedWith (JsError "Message is required"))]).
Proof. split; reflexivity. Qed.

(** A message of blanks is refused; a message with text is sent. *)
Lemma signMessage_validates_before_sending_on_page :
  window page_connector = Some page_origin
  /\ step (Call 1 (SignMessage "0xabc" (VString "   "))) page_connector
     = (page_connector,
        [Settled 1 (RejectedWith (JsError "Message is required"))])
  /\ snd (step (Call 1 (SignMessage "0xabc" (VString " gm "))) page_connector)
     = [PostMessage
          (request_message page_connector 1 "signMessage"
             (VObject [("address", VString "0xabc");
                       ("message", VString " gm ")])) page_origin].
Proof.
  split; [ reflexivity | ]. split.
  - exact (proj1 (signMessage_validates_before_sending page_connector
                    page_origin 1 "0xabc" (VString "   ") eq_refl)).
  - exact (f_equal snd
             (proj1 (signMessage_validates_before_sending page_connector
                       page_origin 1 "0xabc" (VString " gm ") eq_refl))).
Defined.

(** A reply that comes a second after the probe started announces
    nothing: the timer has fired by then. *)
Lemma announcement_iff_probe_succeeds_on_page :
  800 <= 1000
  /\ snd (steps [Advance 1000;
                 Deliver (agent_reply page_connector page_origin 0
                            (inr (VBool true)))]
            page_connector)
     = []
  /\ snd (step (Deliver (agent_reply page_connector page_origin 0
                           (inr (VBool true))))
            page_connector)
     = [DispatchEvent "FuelConnector"].
Proof.
  assert (Hlate : 800 <= 1000) by (apply Nat.leb_le; reflexivity).
  split; [ exact Hlate | ].
  destruct (announcement_iff_probe_succeeds page_connector None page_origin)
    as (_ & Hok & _ & _ & Hafter & _).
  split.
  - exact (Hafter 1000 (inr (VBool true)) Hlate).
  - exact (Hok (VBool true)).
Defined.

(** The node that does not answer: the error of the lookup is the error
    of the call. *)
Lemma addNetwork_looks_up_the_chain_first_on_page :
  Provider_new "http://down.example/graphql"
  = inr (mkProvider "http://down.example/graphql")
  /\ Provider_getChain (mkProvider "http://down.example/graphql")
     = Settles (inl (ForeignError "fetch failed"))
  /\ step (Call 1 (AddNetwork "http://down.example/graphql")) page_connector
     = (page_connector, [Settled 1 (RejectedWith (ForeignError "fetch failed"))]).
Proof.
  split; [ reflexivity | ]. split; [ reflexivity | ].
  destruct (addNetwork_looks_up_the_chain_first page_connector 1
              "http://down.example/graphql") as (_ & Hfetch & _).
  exact (Hfetch (mkProvider "http://down.example/graphql")
           (ForeignError "fetch failed") eq_refl eq_refl).
Defined.

(** A connector named at construction keeps its name through a call, a
    reply, a notification and the expiry of a timer, and its request
    carries it. *)
Lemma name_set_at_construction_never_mutated_on_page :
  name (fst (steps [Call 1 Connect;
                    Deliver for_another_connector;
                    Deliver (agent_events page_connector page_origin notification);
                    Advance 800;
                    On "accounts" 3]
               (fst (constructor (Some "Fuelet Wallet") (Some page_origin)))))
  = "Fuelet Wallet"
  /\ connectorName
       (request_message
          (fst (constructor (Some "Fuelet Wallet") (Some page_origin)))
          1 "connect" (VObject []))
     = Some "Fuelet Wallet".
Proof.
  destruct (name_set_at_construction_never_mutated (Some "Fuelet Wallet")
              (Some page_origin)
              [Call 1 Connect;
               Deliver for_another_connector;
               Deliver (agent_events page_connector page_origin notification);
               Advance 800;
               On "accounts" 3]) as (Hname & Hkept & Hposted & _).
  split.
  - rewrite Hkept. exact Hname.
  - apply (Hposted _ page_origin). simpl. right. left. reflexivity.
Defined.

(** One asset, either way. *)
Lemma addAsset_is_addAssets_of_one_on_page :
  window page_connector = Some page_origin
  /\ steps [Call 1 (AddAsset usdc); Call 2 (AddAsset wrapped_only_on_ethereum)]
       page_connector
     = steps [Call 1 (AddAssets [usdc]); Call 2 (AddAsset wrapped_only_on_ethereum)]
         page_connector
  /\ step (Call 2 (AddAsset wrapped_only_on_ethereum)) page_connector
     = (page_connector,
        [Settled 2 (RejectedWith (JsError "Asset for Fuel Network not found!"))]).
Proof.
  split; [ reflexivity | ].
  destruct (addAsset_is_addAssets_of_one page_connector 1 usdc)
    as (_ & Hsame & _).
  destruct (addAsset_is_addAssets_of_one page_connector 2
              wrapped_only_on_ethereum) as (_ & _ & Hbad & _).
  split.
  - exact (Hsame [Call 2 (AddAsset wrapped_only_on_ethereum)]).
  - exact (Hbad _ eq_refl).
Defined.

(** * The operations at work on a page *)

(** [connect] on the page posts its one request. *)
Lemma every_operation_asks_at_most_once_on_page :
  window page_connector = Some page_origin
  /\ exists args k,
       step (Call 1 Connect) page_connector
       = (with_pendingRequests
            (mkPending 1 None (Some 1) k :: pendingRequests page_connector)
            (with_nextId 2 page_connector),
          [PostMessage (request_message page_connector 1 "connect" args)
             page_origin]).
Proof.
  split; [ reflexivity | ].
  destruct (every_operation_asks_at_most_once page_connector page_origin 1
              Connect eq_refl)
    as [(args & k & Hstep & _) | [(e & Hstep) | Hstep]];
    [ | discriminate Hstep | discriminate Hstep ].
  exists args, k. exact Hstep.
Defined.

(** A locked wallet: [accounts] rejects with the agent's error. *)
Lemma agent_error_reaches_the_caller_on_page :
  window page_connector = Some page_origin
  /\ (exists msg,
        snd (step (Call 1 Accounts) page_connector)
        = [PostMessage msg page_origin])
  /\ snd (step (Deliver (agent_reply page_connector page_origin 1
                           (inl wallet_is_locked)))
            (fst (step (Call 1 Accounts) page_connector)))
     = [Settled 1 (RejectedWith wallet_is_locked)].
Proof.
  assert (Hposted : exists msg,
             snd (step (Call 1 Accounts) page_connector)
             = [PostMessage msg page_origin])
    by (eexists; reflexivity).
  split; [ reflexivity | ]. split; [ exact Hposted | ].
  exact (agent_error_reaches_the_caller page_connector page_origin 1 Accounts
           wallet_is_locked eq_refl Hposted).
Defined.

(** [networks] returns the list the agent sent. *)
Lemma plain_operations_return_the_reply_on_page :
  window page_connector = Some page_origin
  /\ passes_through Networks = true
  /\ snd (step (Deliver (agent_reply page_connector page_origin 1
                           (inr (VArray [VString "https://testnet.fuel.network"]))))
            (fst (step (Call 1 Networks) page_connector)))
     = [Settled 1 (Fulfilled (VArray [VString "https://testnet.fuel.network"]))].
Proof.
  split; [ reflexivity | ]. split; [ reflexivity | ].
  exact (plain_operations_return_the_reply page_connector page_origin 1
           Networks (inr (VArray [VString "https://testnet.fuel.network"]))
           eq_refl eq_refl (ex_intro _ _ eq_refl)).
Defined.

(** No account yet: [null]. *)
Lemma currentAccount_is_an_address_or_null_on_page :
  window page_connector = Some page_origin
  /\ snd (step (Deliver (agent_reply page_connector page_origin 1 (inr VNull)))
            (fst (step (Call 1 CurrentAccount) page_connector)))
     = [Settled 1 (Fulfilled VNull)]
  /\ snd (step (Deliver (agent_reply page_connector page_origin 1
                           (inr (VString "0xabc"))))
            (fst (step (Call 1 CurrentAccount) page_connector)))
     = [Settled 1 (Fulfilled (VString "0xabc"))].
Proof.
  split; [ reflexivity | ]. split.
  - exact (currentAccount_is_an_address_or_null page_connector page_origin 1
             VNull eq_refl).
  - exact (currentAccount_is_an_address_or_null page_connector page_origin 1
             (VString "0xabc") eq_refl).
Defined.

(** An ABI the agent does not know: [getABI] gives [null], [hasABI]
    [false]. *)
Lemma hasABI_is_getABI_as_a_boolean_on_page :
  window page_connector = Some page_origin
  /\ snd (step (Deliver (agent_reply page_connector page_origin 1 (inr VNull)))
            (fst (step (Call 1 (HasABI "0xc0")) page_connector)))
     = [Settled 1 (Fulfilled (VBool false))].
Proof.
  split; [ reflexivity | ].
  exact (proj2 (proj2 (hasABI_is_getABI_as_a_boolean page_connector
                         page_origin 1 "0xc0" (inr VNull) eq_refl))).
Defined.

(** The signed transaction comes back through the parser. *)
Lemma signTransaction_parses_the_reply_on_page :
  window page_connector = Some page_origin
  /\ (forall k, prepareTransactionRequest transfer None k = k prepared_transfer)
  /\ snd (step (Deliver (agent_reply page_connector page_origin 1
                           (inr (VString "{}"))))
            (fst (step (Call 1 (SignTransaction "0xabc" transfer None))
                    page_connector)))
     = [Settled 1 (Fulfilled (VString "{}"))].
Proof.
  assert (Hp : forall k,
             prepareTransactionRequest transfer None k = k prepared_transfer)
    by reflexivity.
  split; [ reflexivity | ]. split; [ exact Hp | ].
  exact (proj2 (signTransaction_parses_the_reply page_connector page_origin 1
                  "0xabc" transfer None prepared_transfer (VString "{}")
                  eq_refl Hp)).
Defined.

(** No transaction: nothing is sent, to sign or to send. *)
Lemma transaction_is_prepared_before_sending_on_page :
  truthy VNull = false
  /\ step (Call 1 (SendTransaction "0xabc" VNull None)) page_connector
     = (page_connector,
        [Settled 1 (RejectedWith (JsError "Transaction is required"))])
  /\ step (Call 1 (SignTransaction "0xabc" VNull None)) page_connector
     = (page_connector,
        [Settled 1 (RejectedWith (JsError "Transaction is required"))]).
Proof.
  split; [ reflexivity | ]. split.
  - exact (proj1 (transaction_is_prepared_before_sending page_connector 1 true
                    "0xabc" VNull None) eq_refl).
  - exact (proj1 (transaction_is_prepared_before_sending page_connector 1 false
                    "0xabc" VNull None) eq_refl).
Defined.

(** The request of [connect] comes back to the listener and is dropped. *)
Lemma own_requests_are_not_consumed_on_page :
  In (PostMessage (request_message page_connector 1 "connect" (VObject []))
        page_origin)
    (snd (step (Call 1 Connect) page_connector))
  /\ step (Deliver (mkMessageEvent page_origin
                      (Channel (request_message page_connector 1 "connect"
                                  (VObject [])))))
       (fst (step (Call 1 Connect) page_connector))
     = (fst (step (Call 1 Connect) page_connector), []).
Proof.
  assert (Hposted :
            In (PostMessage
                  (request_message page_connector 1 "connect" (VObject []))
                  page_origin)
              (snd (step (Call 1 Connect) page_connector)))
    by (left; reflexivity).
  split; [ exact Hposted | ].
  exact (proj2 (own_requests_are_not_consumed (Call 1 Connect) page_connector
                  (fst (step (Call 1 Connect) page_connector)) _ _ Hposted)).
Defined.

(** A [null] result, and a result that is a number. *)
Lemma sendTransaction_on_other_results_on_page :
  window page_connector = Some page_origin
  /\ (forall k, prepareTransactionRequest transfer None k = k prepared_transfer)
  /\ (exists message,
        snd (step (Deliver (agent_reply page_connector page_origin 1 (inr VNull)))
               (fst (step (Call 1 (SendTransaction "0xabc" transfer None))
                       page_connector)))
        = [Settled 1 (RejectedWith (TypeError message))])
  /\ snd (step (Deliver (agent_reply page_connector page_origin 1
                           (inr (VNumber 7))))
            (fst (step (Call 1 (SendTransaction "0xabc" transfer None))
                    page_connector)))
     = [Settled 1 (Fulfilled (VNumber 7))].
Proof.
  assert (Hp : forall k,
             prepareTransactionRequest transfer None k = k prepared_transfer)
    by reflexivity.
  split; [ reflexivity | ]. split; [ exact Hp | ].
  destruct (sendTransaction_on_other_results page_connector page_origin 1
              "0xabc" transfer None prepared_transfer eq_refl Hp)
    as (Hnull & _ & Hnumber & _).
  split; [ exact Hnull | exact (Hnumber 7%Z) ].
Defined.

(** The notification with one ["start"] tuple adds one probe and
    settles nothing. *)
Lemma notifications_leave_requests_alone_on_page :
  window subscribed_connector = Some page_origin
  /\ Forall (fun e => is_settled e = false)
       (snd (step (Deliver (agent_events subscribed_connector page_origin
                              notification))
               subscribed_connector))
  /\ exists probes,
       pendingRequests
         (fst (step (Deliver (agent_events subscribed_connector page_origin
                                notification))
                 subscribed_connector))
       = probes ++ pendingRequests subscribed_connector
       /\ List.length probes = 1.
Proof.
  split; [ reflexivity | ].
  destruct (notifications_leave_requests_alone subscribed_connector page_origin
              notification eq_refl) as (Hs & probes & Hp & Hlen & _).
  split; [ exact Hs | ]. exists probes. split; [ exact Hp | exact Hlen ].
Defined.
